(** * Recovery shims: the dynamic attribute fallback of the four modules

    A shallow embedding of [module/awadhfree.py], [module/cdsfree.py],
    [module/icsfree.py] and [module/verbalfree.py]: the explicit placeholder
    functions each file defines at load time, the stub factory
    ([_make_stub] / [_make_dummy]) and the module-level [__getattr__].

    Python values are a small inductive type, a Python [str] is a [string]
    whose characters are the code points 0..255 (the one literal with a
    character beyond, the dash of a log template, is kept as its UTF-8
    bytes), function objects carry an identity, and the code runs in a
    state-and-exception monad whose state is the allocation counter for
    function objects and the sequence of calls made on the module's logger.
    The name a module runs under, [__name__], is fixed by whoever imports it
    and is a parameter of each module. *)

From Stdlib Require Import String Ascii List ZArith Bool Lia.
From stdpp Require Import base gmap strings list.

Local Open Scope string_scope.
Local Open Scope list_scope.

Set Warnings "-register-all".

(** ** Python values *)

(** The values that flow through the shims.  A [dict] keeps insertion order
    and, in these files, only ever has [str] keys.  [VObj] is any other
    object, known by its identity alone. *)
Inductive pyval : Type :=
| VNone
| VBool (b : bool)
| VInt (z : Z)
| VStr (s : string)
| VTuple (items : list pyval)
| VDict (items : list (string * pyval))
| VObj (id : nat).

(** [d[key]] on a dict value, [None] on a missing key or a non-dict. *)
Fixpoint assoc_get (key : string) (items : list (string * pyval)) : option pyval :=
  match items with
  | [] => None
  | (k, v) :: rest => if String.eqb k key then Some v else assoc_get key rest
  end.

Definition dict_get (key : string) (d : pyval) : option pyval :=
  match d with
  | VDict items => assoc_get key items
  | _ => None
  end.

(** ** Exceptions *)

(** [AttributeError] carries its message.  [TypeError] is the interpreter's
    own error for a call whose arguments do not fit the signature; its
    message is not modelled. *)
Inductive exn : Type :=
| AttributeError (msg : string)
| TypeError.

Inductive result (A : Type) : Type :=
| Ok (a : A)
| Raise (e : exn).
Arguments Ok {A} a.
Arguments Raise {A} e.

(** ** The logger *)

Inductive level : Type := DEBUG | INFO | WARNING.

(** One call on a logger: the logger's name, the severity of the method
    called, the message template and the values passed after it. *)
Record event : Type := Event {
  ev_logger : string;
  ev_level : level;
  ev_msg : string;
  ev_args : list pyval
}.

(** ** Interpreter state and the monad the code runs in *)

Record state : Type := State {
  next_id : nat;       (* identity of the next function object *)
  log : list event     (* calls made on loggers, oldest first *)
}.

Definition M (A : Type) : Type := state -> result A * state.

Definition ret {A} (a : A) : M A := fun st => (Ok a, st).

Definition bind {A B} (m : M A) (k : A -> M B) : M B :=
  fun st =>
    match m st with
    | (Ok a, st') => k a st'
    | (Raise e, st') => (Raise e, st')
    end.

Definition raise {A} (e : exn) : M A := fun st => (Raise e, st).

Notation "x <- m ;; k" := (bind m (fun x => k))
  (at level 100, m at next level, right associativity).
Notation "m ;;; k" := (bind m (fun _ => k))
  (at level 100, right associativity).

(** [logger.<level>(msg, *args)] on the logger named [name]. *)
Definition emit (name : string) (lv : level) (msg : string) (args : list pyval) : M unit :=
  fun st => (Ok tt, State (next_id st) (log st ++ [Event name lv msg args])).

(** ** Function objects *)

(** The two signatures the files use: variadic (any positional and any
    keyword arguments) and empty (no parameter at all). *)
Inductive params : Type := VarArgs | NoParams.

Record pyfunc : Type := PyFunc {
  fn_id : nat;
  fn_name : string;                 (* __name__ *)
  fn_doc : option string;           (* __doc__ *)
  fn_params : params;
  fn_body : list pyval -> list (string * pyval) -> M pyval
}.

(** A [def] statement: a new function object with the next free identity. *)
Definition def_ (name : string) (doc : option string) (ps : params)
    (body : list pyval -> list (string * pyval) -> M pyval) : M pyfunc :=
  fun st => (Ok (PyFunc (next_id st) name doc ps body),
             State (S (next_id st)) (log st)).

(** [f.__name__ = name; f.__doc__ = doc] on a function object. *)
Definition set_metadata (f : pyfunc) (name : string) (doc : string) : pyfunc :=
  PyFunc (fn_id f) name (Some doc) (fn_params f) (fn_body f).

(** A call of [f] with positional and keyword arguments: the interpreter
    binds the arguments to the signature, raising [TypeError] when they do
    not fit, then runs the body. *)
Definition call (f : pyfunc) (args : list pyval) (kwargs : list (string * pyval)) : M pyval :=
  match fn_params f with
  | VarArgs => fn_body f args kwargs
  | NoParams =>
      match args, kwargs with
      | [], [] => fn_body f [] []
      | _, _ => raise TypeError
      end
  end.

(** ** String methods *)

(** [s.startswith(prefixes)] with a tuple of prefixes. *)
Definition startswith (s : string) (prefixes : list string) : bool :=
  existsb (fun p => String.prefix p s) prefixes.

Definition in_range (lo hi : nat) (c : ascii) : bool :=
  (lo <=? nat_of_ascii c)%nat && (nat_of_ascii c <=? hi)%nat.

(** The characters with Unicode property XID_Start below U+0100: the Latin
    letters, FEMININE and MASCULINE ORDINAL INDICATOR, MICRO SIGN and the
    Latin-1 letters. *)
Definition xid_start (c : ascii) : bool :=
  in_range 65 90 c || in_range 97 122 c
  || in_range 170 170 c || in_range 181 181 c || in_range 186 186 c
  || in_range 192 214 c || in_range 216 246 c || in_range 248 255 c.

(** XID_Continue below U+0100: XID_Start, the digits, the underscore and
    MIDDLE DOT. *)
Definition xid_continue (c : ascii) : bool :=
  xid_start c || in_range 48 57 c || in_range 95 95 c || in_range 183 183 c.

Fixpoint all_chars (p : ascii -> bool) (s : string) : bool :=
  match s with
  | EmptyString => true
  | String c rest => p c && all_chars p rest
  end.

(** [s.isidentifier()]: not empty, the first character is XID_Start or an
    underscore, every later one is XID_Continue. *)
Definition isidentifier (s : string) : bool :=
  match s with
  | EmptyString => false
  | String c rest => (xid_start c || in_range 95 95 c) && all_chars xid_continue rest
  end.

(** ** Module objects *)

(** What a name of a module's namespace is bound to: one of the function
    objects the model follows, or anything else (an imported module, the
    logger, a list of names, a function with another signature). *)
Inductive binding : Type :=
| BFunc (f : pyfunc)
| BOther.

(** A top-level statement acts on the module's namespace, [globals()]. *)
Definition stmt : Type := gmap string binding -> M (gmap string binding).

(** [def name ...] at top level, and [globals()[name] = <function>]. *)
Definition def_stmt (name : string) (mk : M pyfunc) : stmt :=
  fun g => f <- mk ;; ret (<[name := BFunc f]> g).

(** A statement that binds [name] to a value that is no placeholder. *)
Definition bind_other (name : string) : stmt :=
  fun g => ret (<[name := BOther]> g).

Fixpoint exec (body : list stmt) : stmt :=
  fun g =>
    match body with
    | [] => ret g
    | s :: rest => g' <- s g ;; exec rest g'
    end.

(** [for x in xs: body] at top level. *)
Fixpoint for_each (xs : list string) (body : string -> stmt) : stmt :=
  fun g =>
    match xs with
    | [] => ret g
    | x :: rest => g' <- body x g ;; for_each rest body g'
    end.

(** The namespace of a module before its first statement runs. *)
Definition initial_globals : gmap string binding :=
  <["__name__" := BOther]> (<["__doc__" := BOther]> (<["__package__" := BOther]>
  (<["__loader__" := BOther]> (<["__spec__" := BOther]> (<["__file__" := BOther]>
  (<["__cached__" := BOther]> (<["__builtins__" := BOther]> ∅))))))).

(** Attribute access on a module object: the namespace first and, on a miss,
    the module-level [__getattr__] (the attribute-miss hook). *)
Definition module_getattr (globals : gmap string binding)
    (getattr : string -> M pyfunc) (name : string) : M binding :=
  match globals !! name with
  | Some b => ret b
  | None => f <- getattr name ;; ret (BFunc f)
  end.

(** ** awadhfree.py *)

Module awadhfree.
Section Source.
Variable __name__ : string.

Definition module_772 : M pyfunc :=
  def_ "module_772" (Some "Placeholder for module_772. Returns a simple message.") VarArgs
    (fun args kwargs =>
       emit __name__ INFO "module_772 called with args=%s kwargs=%s" [VTuple args; VDict kwargs] ;;;
       ret (VStr "module_772 OK")).

Definition module_1861 : M pyfunc :=
  def_ "module_1861" (Some "Placeholder for module_1861.") VarArgs
    (fun args kwargs =>
       emit __name__ INFO "module_1861 called" [] ;;;
       ret (VStr "module_1861 OK")).

Definition module_567 : M pyfunc :=
  def_ "module_567" (Some "Placeholder for module_567.") VarArgs
    (fun args kwargs =>
       emit __name__ INFO "module_567 called" [] ;;;
       ret (VStr "module_567 OK")).

Definition module_7197 : M pyfunc :=
  def_ "module_7197" None VarArgs
    (fun args kwargs =>
       emit __name__ INFO "module_7197 called" [] ;;;
       ret (VStr "module_7197 OK")).

Definition func_2731 : M pyfunc :=
  def_ "func_2731" (Some "Example no-op function retained for compatibility.") NoParams
    (fun _ _ => emit __name__ DEBUG "func_2731 executed" [] ;;; ret VNone).

Definition func_166 : M pyfunc :=
  def_ "func_166" None NoParams
    (fun _ _ => emit __name__ DEBUG "func_166 executed" [] ;;; ret VNone).

Definition func_6399 : M pyfunc :=
  def_ "func_6399" None NoParams
    (fun _ _ => emit __name__ DEBUG "func_6399 executed" [] ;;; ret VNone).

Definition _dummy (name : string) (args : list pyval) (kwargs : list (string * pyval)) : M pyval :=
  emit __name__ WARNING "Called fallback stub %s with args=%s kwargs=%s"
    [VStr name; VTuple args; VDict kwargs] ;;;
  ret (VDict [("stub", VStr name); ("args", VTuple args); ("kwargs", VDict kwargs)]).

Definition _make_dummy (name : string) : M pyfunc :=
  f <- def_ "_dummy" None VarArgs (_dummy name) ;;
  ret (set_metadata f name ("Auto-generated stub for missing symbol '" ++ name ++ "'")).

Definition __getattr__ (name : string) : M pyfunc :=
  if startswith name ["module_"; "func_"] || isidentifier name then
    _make_dummy name
  else
    raise (AttributeError ("module '" ++ __name__ ++ "' has no attribute '" ++ name ++ "'")).

(** The module body, statement by statement.  The imports, the logger and
    the functions with another signature are bound as they come;
    [logging.basicConfig] binds nothing. *)
Definition load : M (gmap string binding) :=
  exec [ bind_other "annotations"; bind_other "logging";
         bind_other "Any"; bind_other "Callable"; bind_other "logger";
         def_stmt "module_772" module_772;
         def_stmt "module_1861" module_1861;
         def_stmt "module_567" module_567;
         def_stmt "module_7197" module_7197;
         def_stmt "func_2731" func_2731;
         def_stmt "func_166" func_166;
         def_stmt "func_6399" func_6399;
         bind_other "_make_dummy"; bind_other "__getattr__"; bind_other "setup";
         bind_other "__all__" ] initial_globals.

(** [setup(client)], the hook the host may call to register handlers. *)
Definition setup (client : pyval) : M pyval :=
  emit __name__ INFO "awadhfree.setup() called — no handlers registered by default" [] ;;;
  ret VNone.

End Source.

(** The names of the explicit placeholders. *)
Definition placeholders : list string :=
  ["module_772"; "module_1861"; "module_567"; "module_7197";
   "func_2731"; "func_166"; "func_6399"].

(** The names a star import asks for. *)
Definition __all__ : list string :=
  [ "module_772"; "module_1861"; "module_567"; "module_7197";
    "func_2731"; "setup" ].

End awadhfree.

(** ** cdsfree.py *)

Module cdsfree.

Definition PLACEHOLDER_MODULES : list string :=
  [ "module_1024"; "module_7085"; "module_9603"; "module_2278";
    "module_155"; "module_4650"; "module_1372"; "module_3125";
    "module_3696"; "module_6821"; "module_1152"; "module_3096";
    "module_5358"; "module_1337"; "module_5873" ].

Definition EXPLICIT_FUNCS : list string :=
  [ "func_6860"; "func_1501"; "func_6451"; "func_3497";
    "func_8510"; "func_2652"; "func_1904"; "func_5312";
    "func_9476"; "func_1488"; "func_6050"; "func_9562";
    "func_1259"; "func_7514"; "func_7239"; "func_4594";
    "func_7029"; "func_9562"; "func_9611"; "func_9078";
    "func_7334"; "func_9701"; "func_8757"; "func_61";
    "func_6261"; "func_6822"; "func_3607"; "func_8025";
    "func_8623"; "func_9932"; "func_6711"; "func_9992";
    "func_5244"; "func_9341"; "func_7159"; "func_2185";
    "func_5508"; "func_8328"; "func_2759"; "func_3370";
    "func_5246"; "func_6962"; "func_9156"; "func_4063";
    "func_8775"; "func_9618"; "func_5840"; "func_8005";
    "func_9667"; "func_5964"; "func_1780"; "func_7488";
    "func_5746"; "func_5465"; "func_8143"; "func_6309" ].

Section Source.
Variable __name__ : string.

Definition _fn (n : string) (args : list pyval) (kwargs : list (string * pyval)) : M pyval :=
  emit __name__ INFO "%s called with args=%s kwargs=%s" [VStr n; VTuple args; VDict kwargs] ;;;
  ret (VDict [("name", VStr n); ("ok", VBool true)]).

Definition _make (n : string) : M pyfunc :=
  f <- def_ "_fn" None VarArgs (_fn n) ;;
  ret (set_metadata f n ("Placeholder for " ++ n)).

Definition _f (n : string) (args : list pyval) (kwargs : list (string * pyval)) : M pyval :=
  emit __name__ DEBUG "%s executed — args=%s kwargs=%s" [VStr n; VTuple args; VDict kwargs] ;;;
  ret VNone.

Definition _makef (n : string) : M pyfunc :=
  f <- def_ "_f" None VarArgs (_f n) ;;
  ret (set_metadata f n ("Placeholder function " ++ n)).

Definition _stub (name : string) (args : list pyval) (kwargs : list (string * pyval)) : M pyval :=
  emit __name__ WARNING "Stub called: %s args=%s kwargs=%s"
    [VStr name; VTuple args; VDict kwargs] ;;;
  ret (VDict [("stub", VStr name); ("args", VTuple args); ("kwargs", VDict kwargs)]).

Definition _make_stub (name : string) : M pyfunc :=
  f <- def_ "_stub" None VarArgs (_stub name) ;;
  ret (set_metadata f name ("Auto-generated stub for missing symbol '" ++ name ++ "'")).

Definition __getattr__ (name : string) : M pyfunc :=
  if startswith name ["module_"; "func_"] then
    _make_stub name
  else
    raise (AttributeError ("module '" ++ __name__ ++ "' has no attribute '" ++ name ++ "'")).

(** The module body.  Each round of a loop rebinds the loop variable and the
    factory, then stores the placeholder under its own name. *)
Definition load : M (gmap string binding) :=
  exec [ bind_other "annotations"; bind_other "logging";
         bind_other "Any"; bind_other "Callable"; bind_other "Dict";
         bind_other "logger";
         bind_other "PLACEHOLDER_MODULES";
         for_each PLACEHOLDER_MODULES (fun n =>
           exec [bind_other "name"; bind_other "_make"; def_stmt n (_make n)]);
         bind_other "EXPLICIT_FUNCS";
         for_each EXPLICIT_FUNCS (fun n =>
           exec [bind_other "fname"; bind_other "_makef"; def_stmt n (_makef n)]);
         bind_other "_make_stub"; bind_other "__getattr__"; bind_other "setup";
         bind_other "__all__" ] initial_globals.

(** [setup(client)], the hook the host may call to register handlers. *)
Definition setup (client : pyval) : M pyval :=
  emit __name__ INFO "cdsfree.setup() called — no handlers registered by default" [] ;;;
  ret VNone.

End Source.

Definition placeholders : list string := PLACEHOLDER_MODULES ++ EXPLICIT_FUNCS.

(** The names a star import asks for. *)
Definition __all__ : list string :=
  PLACEHOLDER_MODULES ++ EXPLICIT_FUNCS ++ ["setup"].

End cdsfree.

(** ** icsfree.py *)

Module icsfree.

Definition _PLACEHOLDER_MODULES : list string :=
  [ "module_9950"; "module_5776"; "module_9709"; "module_4940";
    "module_3478"; "module_7622"; "module_4683"; "module_6245";
    "module_5898"; "module_3921"; "module_3397"; "module_8547";
    "module_5192"; "module_1152"; "module_4983" ].

Definition _EXPLICIT_FUNCS : list string :=
  [ "func_9688"; "func_4890"; "func_2536"; "func_5582";
    "func_7887"; "func_9221"; "func_5664"; "func_8117";
    "func_4210"; "func_283"; "func_7348"; "func_5840";
    "func_6913"; "func_9472"; "func_6595"; "func_8247";
    "func_6313"; "func_151"; "func_568"; "func_7786";
    "func_6479"; "func_851"; "func_3534"; "func_6352";
    "func_1441"; "func_9477"; "func_3773"; "func_9486";
    "func_3484"; "func_8895"; "func_4626"; "func_206";
    "func_3792"; "func_6094"; "func_8031"; "func_820";
    "func_8675"; "func_5192"; "func_8116"; "func_1398";
    "func_7791"; "func_5531"; "func_14"; "func_473";
    "func_8426"; "func_8300"; "func_679"; "func_5319";
    "func_6091"; "func_1464"; "func_7125"; "func_7839";
    "func_955"; "func_3290"; "func_5812"; "func_2344";
    "func_6335"; "func_4374"; "func_5253"; "func_2832";
    "func_4996"; "func_243"; "func_2053"; "func_3535";
    "func_4631"; "func_4811"; "func_4683"; "func_9446";
    "func_2277"; "func_2865"; "func_7651"; "func_6851" ].

Section Source.
Variable __name__ : string.

Definition _fn (n : string) (args : list pyval) (kwargs : list (string * pyval)) : M pyval :=
  emit __name__ INFO "%s called with args=%s kwargs=%s" [VStr n; VTuple args; VDict kwargs] ;;;
  ret (VDict [("name", VStr n); ("ok", VBool true)]).

Definition _make (n : string) : M pyfunc :=
  f <- def_ "_fn" None VarArgs (_fn n) ;;
  ret (set_metadata f n ("Placeholder for " ++ n)).

Definition _f (n : string) (args : list pyval) (kwargs : list (string * pyval)) : M pyval :=
  emit __name__ DEBUG "%s executed — args=%s kwargs=%s" [VStr n; VTuple args; VDict kwargs] ;;;
  ret VNone.

Definition _makef (n : string) : M pyfunc :=
  f <- def_ "_f" None VarArgs (_f n) ;;
  ret (set_metadata f n ("Placeholder function " ++ n)).

Definition _stub (name : string) (args : list pyval) (kwargs : list (string * pyval)) : M pyval :=
  emit __name__ WARNING "Stub called: %s args=%s kwargs=%s"
    [VStr name; VTuple args; VDict kwargs] ;;;
  ret (VDict [("stub", VStr name); ("args", VTuple args); ("kwargs", VDict kwargs)]).

Definition _make_stub (name : string) : M pyfunc :=
  f <- def_ "_stub" None VarArgs (_stub name) ;;
  ret (set_metadata f name ("Auto-generated stub for missing symbol '" ++ name ++ "'")).

Definition __getattr__ (name : string) : M pyfunc :=
  if startswith name ["module_"; "func_"] then
    _make_stub name
  else
    raise (AttributeError ("module '" ++ __name__ ++ "' has no attribute '" ++ name ++ "'")).

(** The module body.  Each round of a loop rebinds the loop variable and the
    factory, then stores the placeholder under its own name. *)
Definition load : M (gmap string binding) :=
  exec [ bind_other "annotations"; bind_other "logging";
         bind_other "Any"; bind_other "Callable"; bind_other "Dict";
         bind_other "logger";
         bind_other "_PLACEHOLDER_MODULES";
         for_each _PLACEHOLDER_MODULES (fun n =>
           exec [bind_other "_name"; bind_other "_make"; def_stmt n (_make n)]);
         bind_other "_EXPLICIT_FUNCS";
         for_each _EXPLICIT_FUNCS (fun n =>
           exec [bind_other "_fname"; bind_other "_makef"; def_stmt n (_makef n)]);
         bind_other "_make_stub"; bind_other "__getattr__"; bind_other "setup";
         bind_other "__all__" ] initial_globals.

(** [setup(client)], the hook the host may call to register handlers. *)
Definition setup (client : pyval) : M pyval :=
  emit __name__ INFO "icsfree.setup() called — no handlers registered by default" [] ;;;
  ret VNone.

End Source.

Definition placeholders : list string := _PLACEHOLDER_MODULES ++ _EXPLICIT_FUNCS.

(** The names a star import asks for. *)
Definition __all__ : list string :=
  _PLACEHOLDER_MODULES ++ _EXPLICIT_FUNCS ++ ["setup"].

End icsfree.

(** ** verbalfree.py *)

Module verbalfree.
Section Source.
Variable __name__ : string.

Definition module_3397 : M pyfunc :=
  def_ "module_3397" None VarArgs
    (fun args kwargs =>
       emit __name__ INFO "module_3397 called with args=%s kwargs=%s" [VTuple args; VDict kwargs] ;;;
       ret (VDict [("name", VStr "module_3397"); ("ok", VBool true)])).

Definition module_6945 : M pyfunc :=
  def_ "module_6945" None VarArgs
    (fun args kwargs =>
       emit __name__ INFO "module_6945 called" [] ;;;
       ret (VDict [("name", VStr "module_6945"); ("value", VInt 6945)])).

Definition module_336 : M pyfunc :=
  def_ "module_336" None VarArgs
    (fun args kwargs =>
       emit __name__ INFO "module_336 called" [] ;;;
       ret (VDict [("name", VStr "module_336")])).

Definition module_1960 : M pyfunc :=
  def_ "module_1960" None VarArgs
    (fun args kwargs =>
       emit __name__ INFO "module_1960 called" [] ;;;
       ret (VDict [("name", VStr "module_1960")])).

Definition module_8023 : M pyfunc :=
  def_ "module_8023" None VarArgs
    (fun args kwargs =>
       emit __name__ INFO "module_8023 called" [] ;;;
       ret (VDict [("name", VStr "module_8023")])).

Definition module_4952 : M pyfunc :=
  def_ "module_4952" None VarArgs
    (fun args kwargs =>
       emit __name__ INFO "module_4952 called" [] ;;;
       ret (VDict [("name", VStr "module_4952")])).

Definition module_6005 : M pyfunc :=
  def_ "module_6005" None VarArgs
    (fun args kwargs =>
       emit __name__ INFO "module_6005 called" [] ;;;
       ret (VDict [("name", VStr "module_6005")])).

Definition module_4251 : M pyfunc :=
  def_ "module_4251" None VarArgs
    (fun args kwargs =>
       emit __name__ INFO "module_4251 called" [] ;;;
       ret (VDict [("name", VStr "module_4251")])).

Definition module_937 : M pyfunc :=
  def_ "module_937" None VarArgs
    (fun args kwargs =>
       emit __name__ INFO "module_937 called" [] ;;;
       ret (VDict [("name", VStr "module_937")])).

Definition module_1152 : M pyfunc :=
  def_ "module_1152" None VarArgs
    (fun args kwargs =>
       emit __name__ INFO "module_1152 called" [] ;;;
       ret (VDict [("name", VStr "module_1152")])).

Definition func_2505 : M pyfunc :=
  def_ "func_2505" None NoParams
    (fun _ _ => emit __name__ DEBUG "func_2505 executed" [] ;;; ret VNone).

Definition func_1703 : M pyfunc :=
  def_ "func_1703" None NoParams
    (fun _ _ => emit __name__ DEBUG "func_1703 executed" [] ;;; ret VNone).

Definition func_7807 : M pyfunc :=
  def_ "func_7807" None NoParams
    (fun _ _ => emit __name__ DEBUG "func_7807 executed" [] ;;; ret VNone).

Definition func_368 : M pyfunc :=
  def_ "func_368" None NoParams
    (fun _ _ => emit __name__ DEBUG "func_368 executed" [] ;;; ret VNone).

Definition func_4079 : M pyfunc :=
  def_ "func_4079" None NoParams
    (fun _ _ => emit __name__ DEBUG "func_4079 executed" [] ;;; ret VNone).

Definition func_5285 : M pyfunc :=
  def_ "func_5285" None NoParams
    (fun _ _ => emit __name__ DEBUG "func_5285 executed" [] ;;; ret VNone).

Definition func_1419 : M pyfunc :=
  def_ "func_1419" None NoParams
    (fun _ _ => emit __name__ DEBUG "func_1419 executed" [] ;;; ret VNone).

Definition func_2970 : M pyfunc :=
  def_ "func_2970" None NoParams
    (fun _ _ => emit __name__ DEBUG "func_2970 executed" [] ;;; ret VNone).

Definition func_6140 : M pyfunc :=
  def_ "func_6140" None NoParams
    (fun _ _ => emit __name__ DEBUG "func_6140 executed" [] ;;; ret VNone).

Definition func_323 : M pyfunc :=
  def_ "func_323" None NoParams
    (fun _ _ => emit __name__ DEBUG "func_323 executed" [] ;;; ret VNone).

Definition _stub (name : string) (args : list pyval) (kwargs : list (string * pyval)) : M pyval :=
  emit __name__ WARNING "Stub called: %s args=%s kwargs=%s"
    [VStr name; VTuple args; VDict kwargs] ;;;
  ret (VDict [("stub", VStr name); ("args", VTuple args); ("kwargs", VDict kwargs)]).

Definition _make_stub (name : string) : M pyfunc :=
  f <- def_ "_stub" None VarArgs (_stub name) ;;
  ret (set_metadata f name ("Auto-generated stub for missing symbol '" ++ name ++ "'")).

Definition __getattr__ (name : string) : M pyfunc :=
  if startswith name ["module_"; "func_"] then
    _make_stub name
  else
    raise (AttributeError ("module '" ++ __name__ ++ "' has no attribute '" ++ name ++ "'")).

Definition load : M (gmap string binding) :=
  exec [ bind_other "annotations"; bind_other "logging";
         bind_other "Any"; bind_other "Callable"; bind_other "Dict";
         bind_other "logger";
         def_stmt "module_3397" module_3397;
         def_stmt "module_6945" module_6945;
         def_stmt "module_336" module_336;
         def_stmt "module_1960" module_1960;
         def_stmt "module_8023" module_8023;
         def_stmt "module_4952" module_4952;
         def_stmt "module_6005" module_6005;
         def_stmt "module_4251" module_4251;
         def_stmt "module_937" module_937;
         def_stmt "module_1152" module_1152;
         def_stmt "func_2505" func_2505;
         def_stmt "func_1703" func_1703;
         def_stmt "func_7807" func_7807;
         def_stmt "func_368" func_368;
         def_stmt "func_4079" func_4079;
         def_stmt "func_5285" func_5285;
         def_stmt "func_1419" func_1419;
         def_stmt "func_2970" func_2970;
         def_stmt "func_6140" func_6140;
         def_stmt "func_323" func_323;
         bind_other "_make_stub"; bind_other "__getattr__"; bind_other "setup";
         bind_other "__all__" ] initial_globals.

(** [setup(client)], the hook the host may call to register handlers. *)
Definition setup (client : pyval) : M pyval :=
  emit __name__ INFO "verbalfree.setup() called — no handlers registered by default" [] ;;;
  ret VNone.

End Source.

Definition placeholders : list string :=
  [ "module_3397"; "module_6945"; "module_336"; "module_1960";
    "module_8023"; "module_4952"; "module_6005"; "module_4251";
    "module_937"; "module_1152"; "func_2505"; "func_1703";
    "func_7807"; "func_368"; "func_4079"; "func_5285";
    "func_1419"; "func_2970"; "func_6140"; "func_323" ].

(** The names a star import asks for. *)
Definition __all__ : list string :=
  [ "module_3397"; "module_6945"; "module_336"; "module_1960";
    "module_8023"; "module_4952"; "module_6005"; "module_4251";
    "module_937"; "func_2505"; "func_1703"; "func_7807";
    "func_368"; "func_4079"; "func_5285"; "func_1419";
    "func_2970"; "func_6140"; "setup" ].

End verbalfree.

(** ** The four variants side by side *)

Inductive variant : Type := Awadhfree | Cdsfree | Icsfree | Verbalfree.

(** The module-level attribute-miss fallback of each file. *)
Definition resolve_missing (v : variant) (modname : string) : string -> M pyfunc :=
  match v with
  | Awadhfree => awadhfree.__getattr__ modname
  | Cdsfree => cdsfree.__getattr__ modname
  | Icsfree => icsfree.__getattr__ modname
  | Verbalfree => verbalfree.__getattr__ modname
  end.

(** The stub factory of each file. *)
Definition make_stub (v : variant) (modname : string) : string -> M pyfunc :=
  match v with
  | Awadhfree => awadhfree._make_dummy modname
  | Cdsfree => cdsfree._make_stub modname
  | Icsfree => icsfree._make_stub modname
  | Verbalfree => verbalfree._make_stub modname
  end.

Definition load_module (v : variant) (modname : string) : M (gmap string binding) :=
  match v with
  | Awadhfree => awadhfree.load modname
  | Cdsfree => cdsfree.load modname
  | Icsfree => icsfree.load modname
  | Verbalfree => verbalfree.load modname
  end.

Definition placeholders (v : variant) : list string :=
  match v with
  | Awadhfree => awadhfree.placeholders
  | Cdsfree => cdsfree.placeholders
  | Icsfree => icsfree.placeholders
  | Verbalfree => verbalfree.placeholders
  end.

(** [__all__] of each file. *)
Definition exported (v : variant) : list string :=
  match v with
  | Awadhfree => awadhfree.__all__
  | Cdsfree => cdsfree.__all__
  | Icsfree => icsfree.__all__
  | Verbalfree => verbalfree.__all__
  end.


(** The level a placeholder logs at: DEBUG for the [func_] names, INFO for
    the [module_] ones. *)
Definition placeholder_level (k : string) : level :=
  if String.prefix "func_" k then DEBUG else INFO.

(** The variants whose fallback tests the prefix and nothing else. *)
Definition strict_prefix (v : variant) : bool :=
  match v with
  | Awadhfree => false
  | _ => true
  end.

(** The template of the warning a stub logs when it is called. *)
Definition stub_template (v : variant) : string :=
  match v with
  | Awadhfree => "Called fallback stub %s with args=%s kwargs=%s"
  | _ => "Stub called: %s args=%s kwargs=%s"
  end.

(** The record a stub hands back. *)
Definition stub_record (name : string) (args : list pyval) (kwargs : list (string * pyval)) : pyval :=
  VDict [("stub", VStr name); ("args", VTuple args); ("kwargs", VDict kwargs)].

(** The function object a stub factory builds when [id] is the next free
    identity. *)
Definition stub_object (v : variant) (modname : string) (id : nat) (name : string) : pyfunc :=
  PyFunc id name (Some ("Auto-generated stub for missing symbol '" ++ name ++ "'")%string) VarArgs
    (fun args kwargs =>
       emit modname WARNING (stub_template v) [VStr name; VTuple args; VDict kwargs] ;;;
       ret (stub_record name args kwargs)).

(** The classification outcome, read off the fallback: does it hand back a
    callable? *)
Definition accepts (v : variant) (name : string) : bool :=
  match fst (resolve_missing v "" name (State 0 [])) with
  | Ok _ => true
  | Raise _ => false
  end.

Definition no_attribute (modname name : string) : exn :=
  AttributeError ("module '" ++ modname ++ "' has no attribute '" ++ name ++ "'").

Definition st0 : state := State 0 [].

(** The placeholders declared without any parameter: the [func_] ones of
    awadhfree and verbalfree. *)
Definition zero_arity (v : variant) (name : string) : bool :=
  match v with
  | Awadhfree | Verbalfree => String.prefix "func_" name
  | Cdsfree | Icsfree => false
  end.

(** A function whose result does not depend on what it is called with. *)
Definition inert (f : pyfunc) : Prop :=
  match fn_params f with
  | VarArgs => exists r, forall args kwargs s, fst (call f args kwargs s) = Ok r
  | NoParams => forall s, fst (fn_body f [] [] s) = Ok VNone
  end.

(** What holds of a placeholder [f] registered under [k] by a load that
    started with [lo] as the next free identity and ended with [hi]. *)
Definition registered (v : variant) (lo hi : nat) (k : string) (f : pyfunc) : Prop :=
  fn_name f = k
  /\ lo <= fn_id f < hi
  /\ fn_params f = (if zero_arity v k then NoParams else VarArgs)
  /\ inert f.

(** The namespace a module has once its body has run. *)
Definition loaded_globals (v : variant) (modname : string) (st : state) : gmap string binding :=
  match fst (load_module v modname st) with
  | Ok g => g
  | Raise _ => ∅
  end.

(** A placeholder [f] registered under [k] in the module named [modname]:
    whatever it is called with, its body returns one value, which is no stub
    record, and makes one call on the module's logger, at the level of its
    kind of name. *)
Definition placeholder_behaviour (modname k : string) (f : pyfunc) : Prop :=
  exists r msg,
    dict_get "stub" r = None
    /\ forall args kwargs s, exists fields,
         fn_body f args kwargs s
           = (Ok r, State (next_id s)
                      (log s ++ [Event modname (placeholder_level k) msg fields])).




(** [k] letters, a name as long as wanted. *)
Fixpoint letters (k : nat) : string :=
  match k with
  | 0 => ""
  | S k' => String "a" (letters k')
  end.

(** * Properties *)

(** ** The stub factory and the fallback *)

Lemma make_stub_run (v : variant) (modname name : string) (st : state) :
  make_stub v modname name st =
    (Ok (stub_object v modname (next_id st) name), State (S (next_id st)) (log st)).
Proof. destruct v; reflexivity. Qed.

Lemma resolve_missing_strict (v : variant) (modname name : string) :
  strict_prefix v = true ->
  resolve_missing v modname name =
    if startswith name ["module_"; "func_"] then make_stub v modname name
    else raise (no_attribute modname name).
Proof. destruct v; intros H; try discriminate H; reflexivity. Qed.

Lemma resolve_missing_wide (modname name : string) :
  resolve_missing Awadhfree modname name =
    if startswith name ["module_"; "func_"] || isidentifier name
    then make_stub Awadhfree modname name
    else raise (no_attribute modname name).
Proof. reflexivity. Qed.

(** Whatever the variant, the fallback either builds the stub for the name
    or raises the attribute error for it, leaving the state as it was. *)
Lemma resolve_missing_cases (v : variant) (modname name : string) (st : state) :
  resolve_missing v modname name st =
    (Ok (stub_object v modname (next_id st) name), State (S (next_id st)) (log st))
  \/ resolve_missing v modname name st = (Raise (no_attribute modname name), st).
Proof.
  destruct v.
  - rewrite resolve_missing_wide.
    destruct (startswith name _ || isidentifier name).
    + left. apply make_stub_run.
    + right. reflexivity.
  - rewrite resolve_missing_strict by reflexivity.
    destruct (startswith name _); [left; apply make_stub_run | right; reflexivity].
  - rewrite resolve_missing_strict by reflexivity.
    destruct (startswith name _); [left; apply make_stub_run | right; reflexivity].
  - rewrite resolve_missing_strict by reflexivity.
    destruct (startswith name _); [left; apply make_stub_run | right; reflexivity].
Qed.

Lemma resolve_missing_prefixed (v : variant) (modname name : string) (st : state) :
  startswith name ["module_"; "func_"] = true ->
  resolve_missing v modname name st =
    (Ok (stub_object v modname (next_id st) name), State (S (next_id st)) (log st)).
Proof.
  intros H. destruct v.
  - rewrite resolve_missing_wide, H. apply make_stub_run.
  - rewrite resolve_missing_strict, H by reflexivity. apply make_stub_run.
  - rewrite resolve_missing_strict, H by reflexivity. apply make_stub_run.
  - rewrite resolve_missing_strict, H by reflexivity. apply make_stub_run.
Qed.

Lemma call_stub_object (v : variant) (modname : string) (id : nat) (name : string)
    (args : list pyval) (kwargs : list (string * pyval)) (s : state) :
  call (stub_object v modname id name) args kwargs s =
    (Ok (stub_record name args kwargs),
     State (next_id s)
       (log s ++ [Event modname WARNING (stub_template v) [VStr name; VTuple args; VDict kwargs]])).
Proof. reflexivity. Qed.

(** ** Running monadic code *)

Lemma bind_run {A B} (m : M A) (k : A -> M B) (st st' : state) (x : A) :
  m st = (Ok x, st') -> bind m k st = k x st'.
Proof. intros H. unfold bind. rewrite H. reflexivity. Qed.

Lemma exec_cons (s : stmt) (rest : list stmt) (g : gmap string binding) (st : state) :
  exec (s :: rest) g st = bind (s g) (exec rest) st.
Proof. reflexivity. Qed.

Lemma for_each_cons (x : string) (xs : list string) (body : string -> stmt)
    (g : gmap string binding) (st : state) :
  for_each (x :: xs) body g st = bind (body x g) (for_each xs body) st.
Proof. reflexivity. Qed.

Lemma bind_other_run (name : string) (g : gmap string binding) (st : state) :
  bind_other name g st = (Ok (<[name := BOther]> g), st).
Proof. reflexivity. Qed.

Lemma def_stmt_run (name : string) (mk : M pyfunc) (g : gmap string binding)
    (st st' : state) (f : pyfunc) :
  mk st = (Ok f, st') -> def_stmt name mk g st = (Ok (<[name := BFunc f]> g), st').
Proof. intros H. unfold def_stmt. rewrite (bind_run _ _ _ _ _ H). reflexivity. Qed.

(** ** Loading a module: the loops that register placeholders *)

Section Loops.
Variables (a b : string) (mk : string -> M pyfunc) (shape : nat -> string -> pyfunc).
Hypothesis mk_run : forall n st,
  mk n st = (Ok (shape (next_id st) n), State (S (next_id st)) (log st)).

Lemma round_run (n : string) (g : gmap string binding) (st : state) :
  exec [bind_other a; bind_other b; def_stmt n (mk n)] g st =
    (Ok (<[n := BFunc (shape (next_id st) n)]> (<[b := BOther]> (<[a := BOther]> g))),
     State (S (next_id st)) (log st)).
Proof.
  rewrite exec_cons, (bind_run _ _ _ _ _ (bind_other_run _ _ _)).
  rewrite exec_cons, (bind_run _ _ _ _ _ (bind_other_run _ _ _)).
  rewrite exec_cons, (bind_run _ _ _ _ _ (def_stmt_run _ _ _ _ _ _ (mk_run _ _))).
  reflexivity.
Qed.

(** One loop of the strict variants: every round rebinds the loop variable
    [a] and the factory [b], then stores the placeholder under its name.
    The loop never raises, allocates one function object a round, leaves
    every other name alone and leaves each listed name bound to a
    placeholder of that name. *)
Lemma for_each_register (xs : list string) (g : gmap string binding) (st : state) :
  exists g',
    for_each xs (fun n => exec [bind_other a; bind_other b; def_stmt n (mk n)]) g st
      = (Ok g', State (length xs + next_id st) (log st))
    /\ (forall k, ~ In k xs -> k <> a -> k <> b -> g' !! k = g !! k)
    /\ (~ In a xs -> ~ In b xs ->
        forall k, In k xs ->
          exists id, next_id st <= id < length xs + next_id st
                     /\ g' !! k = Some (BFunc (shape id k))).
Proof.
  revert g st. induction xs as [|x xs IH]; intros g [nid lg]; cbn [next_id log].
  - exists g. split; [reflexivity | split; [reflexivity |]]. intros _ _ k [].
  - set (g1 := <[x := BFunc (shape nid x)]> (<[b := BOther]> (<[a := BOther]> g))).
    destruct (IH g1 (State (S nid) lg)) as (g' & Hrun & Hframe & Hbound).
    cbn [next_id log] in Hrun, Hbound.
    exists g'. split; [|split].
    + rewrite for_each_cons, (bind_run _ _ _ _ _ (round_run _ _ _)).
      cbn [next_id log]. fold g1. rewrite Hrun. cbn [length].
      f_equal. f_equal. lia.
    + intros k Hk Ha Hb.
      rewrite Hframe; [| intros ?; apply Hk; right; assumption | exact Ha | exact Hb].
      subst g1. rewrite !lookup_insert_ne; [reflexivity | congruence | congruence |].
      intros ->. apply Hk. left. reflexivity.
    + intros Ha Hb k Hk.
      destruct (in_dec string_dec k xs) as [Hin | Hout].
      * destruct (Hbound (fun H => Ha (or_intror H)) (fun H => Hb (or_intror H)) k Hin)
          as (id & Hid & Hlook).
        exists id. cbn [length]. split; [lia | exact Hlook].
      * destruct Hk as [-> | Hk]; [| contradiction].
        exists nid. split; [cbn [length]; lia |].
        rewrite Hframe; [| exact Hout | |].
        -- subst g1. apply lookup_insert_eq.
        -- intros ->. apply Ha. left. reflexivity.
        -- intros ->. apply Hb. left. reflexivity.
Qed.

End Loops.

(** ** What loading leaves in the namespace *)


Lemma neq_of_in (c k : string) (xs : list string) :
  existsb (String.eqb c) xs = false -> In k xs -> k <> c.
Proof.
  intros Hex Hin ->.
  assert (existsb (String.eqb c) xs = true) as Ht.
  { apply existsb_exists. exists c. split; [exact Hin | apply String.eqb_refl]. }
  congruence.
Qed.

Lemma not_in_of_existsb (c : string) (xs : list string) :
  existsb (String.eqb c) xs = false -> ~ In c xs.
Proof. intros Hex Hin. exact (neq_of_in c c xs Hex Hin eq_refl). Qed.

Lemma def_run (name : string) (doc : option string) (ps : params)
    (body : list pyval -> list (string * pyval) -> M pyval) (nid : nat) (lg : list event) :
  def_ name doc ps body (State nid lg) = (Ok (PyFunc nid name doc ps body), State (S nid) lg).
Proof. reflexivity. Qed.

(** Runs the next statement of a module body whose statements are plain
    bindings and [def]s. *)
Ltac run_stmt :=
  rewrite exec_cons;
  first [ rewrite (bind_run _ _ _ _ _ (bind_other_run _ _ _))
        | erewrite bind_run by (apply def_stmt_run; apply def_run) ].

(** Finds the binding of a literal name in a chain of insertions. *)
Ltac find_binding :=
  repeat (rewrite lookup_insert_ne by discriminate); apply lookup_insert_eq.

Ltac registered_here :=
  repeat split; cbn; try lia; try (eexists; intros; reflexivity).

Lemma awadhfree_load (modname : string) (st : state) :
  exists g,
    awadhfree.load modname st = (Ok g, State (7 + next_id st) (log st))
    /\ forall k, In k awadhfree.placeholders ->
         exists f, g !! k = Some (BFunc f)
                   /\ registered Awadhfree (next_id st) (7 + next_id st) k f.
Proof.
  destruct st as [nid lg]. cbn [next_id log]. unfold awadhfree.load.
  eexists. split.
  - repeat run_stmt. reflexivity.
  - intros k Hk. unfold awadhfree.placeholders in Hk.
    repeat (destruct Hk as [<- | Hk];
            [ eexists; split; [find_binding | registered_here] | ]).
    destruct Hk.
Qed.

Lemma verbalfree_load (modname : string) (st : state) :
  exists g,
    verbalfree.load modname st = (Ok g, State (20 + next_id st) (log st))
    /\ forall k, In k verbalfree.placeholders ->
         exists f, g !! k = Some (BFunc f)
                   /\ registered Verbalfree (next_id st) (20 + next_id st) k f.
Proof.
  destruct st as [nid lg]. cbn [next_id log]. unfold verbalfree.load.
  eexists. split.
  - repeat run_stmt. reflexivity.
  - intros k Hk. unfold verbalfree.placeholders in Hk.
    repeat (destruct Hk as [<- | Hk];
            [ eexists; split; [find_binding | registered_here] | ]).
    destruct Hk.
Qed.

Ltac solve_in := cbn [In]; repeat first [left; reflexivity | right].

(** The body shared by cdsfree.py and icsfree.py: two lists of names, each
    followed by the loop that registers a placeholder per name. *)
Section StrictLoad.
Variables (lm lf : list string) (nm_lm var_m nm_lf var_f : string).
Variables (mkm mkf : string -> M pyfunc) (shm shf : nat -> string -> pyfunc).
Hypothesis mkm_run : forall n st,
  mkm n st = (Ok (shm (next_id st) n), State (S (next_id st)) (log st)).
Hypothesis mkf_run : forall n st,
  mkf n st = (Ok (shf (next_id st) n), State (S (next_id st)) (log st)).
Hypothesis fresh_m : forall c,
  In c [var_m; "_make"; nm_lf; var_f; "_makef";
        "_make_stub"; "__getattr__"; "setup"; "__all__"] ->
  existsb (String.eqb c) lm = false.
Hypothesis fresh_f : forall c,
  In c [var_f; "_makef"; "_make_stub"; "__getattr__"; "setup"; "__all__"] ->
  existsb (String.eqb c) lf = false.

Lemma strict_load (st : state) :
  exists g,
    exec [ bind_other "annotations"; bind_other "logging";
           bind_other "Any"; bind_other "Callable"; bind_other "Dict";
           bind_other "logger";
           bind_other nm_lm;
           for_each lm (fun n =>
             exec [bind_other var_m; bind_other "_make"; def_stmt n (mkm n)]);
           bind_other nm_lf;
           for_each lf (fun n =>
             exec [bind_other var_f; bind_other "_makef"; def_stmt n (mkf n)]);
           bind_other "_make_stub"; bind_other "__getattr__"; bind_other "setup";
           bind_other "__all__" ] initial_globals st
      = (Ok g, State (length lm + length lf + next_id st) (log st))
    /\ forall k, In k (lm ++ lf) ->
         exists id, next_id st <= id < length lm + length lf + next_id st
           /\ (g !! k = Some (BFunc (shm id k)) \/ g !! k = Some (BFunc (shf id k))).
Proof.
  destruct st as [nid lg]. cbn [next_id log].
  set (g0 := <[nm_lm := BOther]> (<["logger" := BOther]> (<["Dict" := BOther]>
             (<["Callable" := BOther]> (<["Any" := BOther]> (<["logging" := BOther]>
             (<["annotations" := BOther]> initial_globals))))))).
  destruct (for_each_register var_m "_make" mkm shm mkm_run lm g0 (State nid lg))
    as (g1 & Hrun1 & Hframe1 & Hbound1).
  cbn [next_id log] in Hrun1, Hbound1.
  destruct (for_each_register var_f "_makef" mkf shf mkf_run lf
              (<[nm_lf := BOther]> g1) (State (length lm + nid) lg))
    as (g2 & Hrun2 & Hframe2 & Hbound2).
  cbn [next_id log] in Hrun2, Hbound2.
  exists (<["__all__" := BOther]> (<["setup" := BOther]> (<["__getattr__" := BOther]>
          (<["_make_stub" := BOther]> g2)))).
  split.
  - do 7 run_stmt. fold g0.
    rewrite exec_cons, (bind_run _ _ _ _ _ Hrun1). run_stmt.
    rewrite exec_cons, (bind_run _ _ _ _ _ Hrun2). do 4 run_stmt.
    cbn [exec ret]. f_equal. f_equal. lia.
  - assert (forall c, In c [var_f; "_makef"; "_make_stub"; "__getattr__"; "setup"; "__all__"] ->
              forall k, In k lf -> c <> k) as Hneq_f.
    { intros c Hc k Hk. apply not_eq_sym, (neq_of_in c k lf (fresh_f c Hc) Hk). }
    assert (forall c, In c [var_m; "_make"; nm_lf; var_f; "_makef";
                            "_make_stub"; "__getattr__"; "setup"; "__all__"] ->
              forall k, In k lm -> c <> k) as Hneq_m.
    { intros c Hc k Hk. apply not_eq_sym, (neq_of_in c k lm (fresh_m c Hc) Hk). }
    intros k Hk.
    destruct (in_dec string_dec k lf) as [Hin | Hout].
    + destruct (Hbound2 (not_in_of_existsb _ _ (fresh_f var_f ltac:(solve_in)))
                        (not_in_of_existsb _ _ (fresh_f "_makef" ltac:(solve_in))) k Hin)
        as (id & Hid & Hlook).
      exists id. split; [lia |]. right.
      do 4 (rewrite lookup_insert_ne by (apply Hneq_f; [solve_in | exact Hin])).
      exact Hlook.
    + apply in_app_or in Hk. destruct Hk as [Hk | Hk]; [| contradiction].
      destruct (Hbound1 (not_in_of_existsb _ _ (fresh_m var_m ltac:(solve_in)))
                        (not_in_of_existsb _ _ (fresh_m "_make" ltac:(solve_in))) k Hk)
        as (id & Hid & Hlook).
      exists id. split; [lia |]. left.
      do 4 (rewrite lookup_insert_ne by (apply Hneq_m; [solve_in | exact Hk])).
      rewrite Hframe2;
        [| exact Hout
         | apply not_eq_sym, Hneq_m; [solve_in | exact Hk]
         | apply not_eq_sym, Hneq_m; [solve_in | exact Hk] ].
      rewrite lookup_insert_ne by (apply Hneq_m; [solve_in | exact Hk]).
      exact Hlook.
Qed.

End StrictLoad.

Ltac fresh_names :=
  let c := fresh "c" in
  let Hc := fresh "Hc" in
  intros c Hc; cbn [In] in Hc;
  repeat (destruct Hc as [<- | Hc]; [vm_compute; reflexivity |]);
  destruct Hc.

Lemma cdsfree_load (modname : string) (st : state) :
  exists g,
    cdsfree.load modname st = (Ok g, State (71 + next_id st) (log st))
    /\ forall k, In k cdsfree.placeholders ->
         exists f, g !! k = Some (BFunc f)
                   /\ registered Cdsfree (next_id st) (71 + next_id st) k f.
Proof.
  destruct (strict_load cdsfree.PLACEHOLDER_MODULES cdsfree.EXPLICIT_FUNCS
              "PLACEHOLDER_MODULES" "name" "EXPLICIT_FUNCS" "fname"
              (cdsfree._make modname) (cdsfree._makef modname)
              (fun id n => PyFunc id n (Some ("Placeholder for " ++ n)%string) VarArgs
                             (cdsfree._fn modname n))
              (fun id n => PyFunc id n (Some ("Placeholder function " ++ n)%string) VarArgs
                             (cdsfree._f modname n))
              (fun n st => eq_refl) (fun n st => eq_refl)
              ltac:(fresh_names) ltac:(fresh_names) st) as (g & Hrun & Hbound).
  exists g. split; [exact Hrun |].
  intros k Hk. destruct (Hbound k Hk) as (id & Hid & [Hlook | Hlook]);
    eexists; (split; [exact Hlook |]);
    (split; [reflexivity | split; [exact Hid | split; [reflexivity |]]]);
    eexists; intros; reflexivity.
Qed.

Lemma icsfree_load (modname : string) (st : state) :
  exists g,
    icsfree.load modname st = (Ok g, State (87 + next_id st) (log st))
    /\ forall k, In k icsfree.placeholders ->
         exists f, g !! k = Some (BFunc f)
                   /\ registered Icsfree (next_id st) (87 + next_id st) k f.
Proof.
  destruct (strict_load icsfree._PLACEHOLDER_MODULES icsfree._EXPLICIT_FUNCS
              "_PLACEHOLDER_MODULES" "_name" "_EXPLICIT_FUNCS" "_fname"
              (icsfree._make modname) (icsfree._makef modname)
              (fun id n => PyFunc id n (Some ("Placeholder for " ++ n)%string) VarArgs
                             (icsfree._fn modname n))
              (fun id n => PyFunc id n (Some ("Placeholder function " ++ n)%string) VarArgs
                             (icsfree._f modname n))
              (fun n st => eq_refl) (fun n st => eq_refl)
              ltac:(fresh_names) ltac:(fresh_names) st) as (g & Hrun & Hbound).
  exists g. split; [exact Hrun |].
  intros k Hk. destruct (Hbound k Hk) as (id & Hid & [Hlook | Hlook]);
    eexists; (split; [exact Hlook |]);
    (split; [reflexivity | split; [exact Hid | split; [reflexivity |]]]);
    eexists; intros; reflexivity.
Qed.

(** Loading never raises, allocates one function object for each entry of
    the placeholder lists and leaves every placeholder name bound. *)
Lemma load_module_spec (v : variant) (modname : string) (st : state) :
  exists g,
    load_module v modname st
      = (Ok g, State (length (placeholders v) + next_id st) (log st))
    /\ forall k, In k (placeholders v) ->
         exists f, g !! k = Some (BFunc f)
                   /\ registered v (next_id st) (length (placeholders v) + next_id st) k f.
Proof.
  destruct v.
  - exact (awadhfree_load modname st).
  - exact (cdsfree_load modname st).
  - exact (icsfree_load modname st).
  - exact (verbalfree_load modname st).
Qed.

(** * The claims *)

(** ** Resolution *)

(** C1: for every name that starts with an accepted prefix, ["module_"] or
    ["func_"], the module-level fallback of each of the four files returns a
    callable and does not raise: it hands back a freshly allocated variadic
    function object named after the request. *)
Theorem resolve_missing_accepts_prefixed
    (v : variant) (modname name : string) (st : state) :
  startswith name ["module_"; "func_"] = true ->
  exists f,
    resolve_missing v modname name st = (Ok f, State (S (next_id st)) (log st))
    /\ fn_name f = name
    /\ fn_params f = VarArgs.
Proof.
  intros H. exists (stub_object v modname (next_id st) name).
  split; [apply resolve_missing_prefixed, H | split; reflexivity].
Qed.

Lemma resolve_missing_accepts_prefixed_witness :
  startswith "module_9999" ["module_"; "func_"] = true
  /\ exists f,
       resolve_missing Cdsfree "module.cdsfree" "module_9999" st0
         = (Ok f, State (S (next_id st0)) (log st0))
       /\ fn_name f = "module_9999"
       /\ fn_params f = VarArgs.
Proof.
  split; [reflexivity |].
  apply (resolve_missing_accepts_prefixed Cdsfree "module.cdsfree" "module_9999" st0).
  reflexivity.
Defined.

(** C2: in the strict-prefix variants (cdsfree, icsfree, verbalfree) a name
    that starts with neither prefix makes the fallback raise the attribute
    error whose message quotes the requested name, and whenever the fallback
    raises at all, for any name and in any state, it is that error for a
    name without an accepted prefix. *)
Theorem strict_resolve_rejects_unprefixed
    (v : variant) (modname name : string) (st : state) :
  strict_prefix v = true ->
  startswith name ["module_"; "func_"] = false ->
  resolve_missing v modname name st
    = (Raise (AttributeError ("module '" ++ modname ++ "' has no attribute '" ++ name ++ "'")),
       st)
  /\ forall name' st' e,
       fst (resolve_missing v modname name' st') = Raise e ->
       e = AttributeError ("module '" ++ modname ++ "' has no attribute '" ++ name' ++ "'")
       /\ startswith name' ["module_"; "func_"] = false.
Proof.
  intros Hv Hname. split.
  - rewrite (resolve_missing_strict v modname name Hv), Hname. reflexivity.
  - intros name' st' e. rewrite (resolve_missing_strict v modname name' Hv).
    destruct (startswith name' _) eqn:Hp.
    + cbv beta iota. rewrite make_stub_run. discriminate.
    + cbn. intros [= <-]. split; reflexivity.
Qed.

Lemma strict_resolve_rejects_unprefixed_witness :
  strict_prefix Cdsfree = true
  /\ startswith "totally_unrelated" ["module_"; "func_"] = false
  /\ resolve_missing Cdsfree "module.cdsfree" "totally_unrelated" st0
       = (Raise (AttributeError
                   "module 'module.cdsfree' has no attribute 'totally_unrelated'"), st0).
Proof.
  split; [reflexivity | split; [reflexivity |]].
  exact (proj1 (strict_resolve_rejects_unprefixed Cdsfree "module.cdsfree"
                  "totally_unrelated" st0 eq_refl eq_refl)).
Defined.

(** ** Stub invocation *)

(** C3: whatever the variant, if the fallback accepts a name then calling the
    callable it returned, with any positional and keyword arguments, returns
    a record that holds exactly the requested name (under the key "stub"),
    the positional arguments as passed (under "args") and the keyword
    arguments as passed (under "kwargs"), and nothing else. *)
Theorem stub_record_echoes_call
    (v : variant) (modname name : string) (st st' : state) (f : pyfunc)
    (args : list pyval) (kwargs : list (string * pyval)) (s : state) :
  resolve_missing v modname name st = (Ok f, st') ->
  exists r,
    fst (call f args kwargs s) = Ok r
    /\ r = VDict [("stub", VStr name); ("args", VTuple args); ("kwargs", VDict kwargs)]
    /\ dict_get "stub" r = Some (VStr name)
    /\ dict_get "args" r = Some (VTuple args)
    /\ dict_get "kwargs" r = Some (VDict kwargs).
Proof.
  intros H. exists (stub_record name args kwargs).
  destruct (resolve_missing_cases v modname name st) as [E | E];
    rewrite E in H; [| discriminate H].
  injection H as <- _. rewrite call_stub_object.
  repeat split; reflexivity.
Qed.

(** Scenario 1 of the specification. *)
Lemma stub_record_echoes_call_witness :
  resolve_missing Cdsfree "module.cdsfree" "module_9999" st0
    = (Ok (stub_object Cdsfree "module.cdsfree" 0 "module_9999"), State 1 [])
  /\ exists r,
       fst (call (stub_object Cdsfree "module.cdsfree" 0 "module_9999")
              [VInt 1; VInt 2] [("x", VInt 3)] st0) = Ok r
       /\ r = VDict [("stub", VStr "module_9999"); ("args", VTuple [VInt 1; VInt 2]);
                     ("kwargs", VDict [("x", VInt 3)])]
       /\ dict_get "stub" r = Some (VStr "module_9999")
       /\ dict_get "args" r = Some (VTuple [VInt 1; VInt 2])
       /\ dict_get "kwargs" r = Some (VDict [("x", VInt 3)]).
Proof.
  split; [reflexivity |].
  apply (stub_record_echoes_call Cdsfree "module.cdsfree" "module_9999" st0 (State 1 [])).
  reflexivity.
Defined.



(** ** The wide variant *)

(** C5, as stated, fails: awadhfree still rejects a requested name that has
    no accepted prefix and is not an identifier. *)
Lemma wide_variant_still_rejects :
  startswith "totally-unrelated" ["module_"; "func_"] = false
  /\ isidentifier "totally-unrelated" = false
  /\ resolve_missing Awadhfree "module.awadhfree" "totally-unrelated" st0
       = (Raise (AttributeError
                   "module 'module.awadhfree' has no attribute 'totally-unrelated'"), st0)
  /\ resolve_missing Awadhfree "module.awadhfree" "" st0
       = (Raise (AttributeError "module 'module.awadhfree' has no attribute ''"), st0).
Proof. repeat split. Qed.

(** C5, amended: in awadhfree the fallback accepts every identifier besides
    the prefixed names, and resolution succeeds exactly for the names that
    carry an accepted prefix or are identifiers; every other name still
    raises the attribute error. *)
Theorem wide_variant_resolution (modname name : string) (st : state) :
  (isidentifier name = true ->
     exists f, resolve_missing Awadhfree modname name st
                 = (Ok f, State (S (next_id st)) (log st)))
  /\ (startswith name ["module_"; "func_"] = true ->
     exists f, resolve_missing Awadhfree modname name st
                 = (Ok f, State (S (next_id st)) (log st)))
  /\ (startswith name ["module_"; "func_"] = false -> isidentifier name = false ->
     resolve_missing Awadhfree modname name st
       = (Raise (AttributeError
                   ("module '" ++ modname ++ "' has no attribute '" ++ name ++ "'")), st)).
Proof.
  rewrite resolve_missing_wide. split; [| split].
  - intros ->. rewrite orb_true_r. cbv beta iota. rewrite make_stub_run.
    eexists. reflexivity.
  - intros ->. cbn [orb]. cbv beta iota. rewrite make_stub_run. eexists. reflexivity.
  - intros -> ->. reflexivity.
Qed.

(** ** Explicit placeholders *)


Lemma loaded_globals_spec (v : variant) (modname : string) (st : state) :
  load_module v modname st
    = (Ok (loaded_globals v modname st),
       State (length (placeholders v) + next_id st) (log st))
  /\ forall k, In k (placeholders v) ->
       exists f, loaded_globals v modname st !! k = Some (BFunc f)
                 /\ registered v (next_id st) (length (placeholders v) + next_id st) k f.
Proof.
  unfold loaded_globals.
  destruct (load_module_spec v modname st) as (g & Hrun & Hbound).
  rewrite Hrun. cbn [fst]. split; [reflexivity | exact Hbound].
Qed.

Lemma call_no_params (f : pyfunc) (args : list pyval) (kwargs : list (string * pyval))
    (s : state) :
  fn_params f = NoParams -> args <> [] \/ kwargs <> [] ->
  call f args kwargs s = (Raise TypeError, s).
Proof.
  intros Hp Hne. unfold call. rewrite Hp.
  destruct args as [|a args]; [| reflexivity].
  destruct kwargs as [|kw kwargs]; [| reflexivity].
  destruct Hne as [Hne | Hne]; contradiction Hne; reflexivity.
Qed.

(** C6, as stated, fails: func_2731 of awadhfree is declared without
    parameters, so a call with a positional or a keyword argument raises
    [TypeError] where the call with none returns [None]. *)
Lemma func_2731_rejects_arguments :
  exists f,
    loaded_globals Awadhfree "module.awadhfree" st0 !! "func_2731" = Some (BFunc f)
    /\ fst (call f [] [] st0) = Ok VNone
    /\ fst (call f [VInt 1] [] st0) = Raise TypeError
    /\ fst (call f [] [("x", VInt 1)] st0) = Raise TypeError.
Proof.
  destruct (loaded_globals_spec Awadhfree "module.awadhfree" st0) as [_ Hbound].
  destruct (Hbound "func_2731" ltac:(solve_in)) as (f & Hlook & _ & _ & Hp & Hin).
  exists f. cbn in Hp. unfold inert in Hin. rewrite Hp in Hin.
  split; [exact Hlook | split; [| split]].
  - unfold call. rewrite Hp. apply Hin.
  - rewrite call_no_params; [reflexivity | exact Hp | left; discriminate].
  - rewrite call_no_params; [reflexivity | exact Hp | right; discriminate].
Qed.

(** C6, amended: after loading, every placeholder name is bound to a
    function.  A placeholder declared with variadic parameters (all of them
    in cdsfree and icsfree, the [module_] ones in awadhfree and verbalfree)
    accepts any positional and keyword arguments and returns one fixed
    result whatever the input.  A placeholder declared without parameters
    (the [func_] ones of awadhfree and verbalfree, func_2731 among them)
    returns [None] when called without arguments and raises [TypeError] when
    called with any. *)
Theorem placeholder_calls (v : variant) (modname : string) (st : state) (k : string) :
  In k (placeholders v) ->
  exists f,
    loaded_globals v modname st !! k = Some (BFunc f)
    /\ if zero_arity v k
       then fn_params f = NoParams
            /\ (forall s, fst (call f [] [] s) = Ok VNone)
            /\ (forall args kwargs s, args <> [] \/ kwargs <> [] ->
                  call f args kwargs s = (Raise TypeError, s))
       else fn_params f = VarArgs
            /\ exists r, forall args kwargs s, fst (call f args kwargs s) = Ok r.
Proof.
  intros Hk.
  destruct (loaded_globals_spec v modname st) as [_ Hbound].
  destruct (Hbound k Hk) as (f & Hlook & _ & _ & Hp & Hin).
  exists f. split; [exact Hlook |].
  unfold inert in Hin. rewrite Hp in Hin.
  destruct (zero_arity v k).
  - split; [exact Hp | split].
    + intros s. unfold call. rewrite Hp. apply Hin.
    + intros args kwargs s Hne. apply call_no_params; assumption.
  - split; [exact Hp | exact Hin].
Qed.

Lemma placeholder_calls_witness :
  In "module_772" (placeholders Awadhfree)
  /\ exists f,
       loaded_globals Awadhfree "module.awadhfree" st0 !! "module_772" = Some (BFunc f)
       /\ fn_params f = VarArgs
       /\ exists r, forall args kwargs s, fst (call f args kwargs s) = Ok r.
Proof.
  split; [solve_in |].
  exact (placeholder_calls Awadhfree "module.awadhfree" st0 "module_772" ltac:(solve_in)).
Defined.

(** C7: for every name registered as an explicit placeholder, attribute
    access on the loaded module returns the function bound in the namespace
    and leaves the state untouched, so the fallback is not run: no function
    object is allocated and nothing is logged.  The function returned is the
    same object at every access, and it is not the object the fallback would
    have built. *)
Theorem placeholder_lookup_precedes_fallback
    (v : variant) (modname : string) (st : state) (k : string) :
  In k (placeholders v) ->
  exists f,
    loaded_globals v modname st !! k = Some (BFunc f)
    /\ fn_name f = k
    /\ (forall s, module_getattr (loaded_globals v modname st) (resolve_missing v modname) k s
                  = (Ok (BFunc f), s))
    /\ (forall s f', next_id (snd (load_module v modname st)) <= next_id s ->
                     fst (resolve_missing v modname k s) = Ok f' ->
                     fn_id f' <> fn_id f).
Proof.
  intros Hk.
  destruct (loaded_globals_spec v modname st) as [Hrun Hbound].
  destruct (Hbound k Hk) as (f & Hlook & Hname & Hid & _ & _).
  exists f. split; [exact Hlook | split; [exact Hname | split]].
  - intros s. unfold module_getattr. rewrite Hlook. reflexivity.
  - intros s f' Hs Hres. rewrite Hrun in Hs. cbn [snd next_id] in Hs.
    destruct (resolve_missing_cases v modname k s) as [E | E];
      rewrite E in Hres; cbn [fst] in Hres; [| discriminate Hres].
    injection Hres as <-. cbn [stub_object fn_id]. lia.
Qed.

Lemma placeholder_lookup_precedes_fallback_witness :
  In "func_2731" (placeholders Awadhfree)
  /\ exists f,
       loaded_globals Awadhfree "module.awadhfree" st0 !! "func_2731" = Some (BFunc f)
       /\ fn_name f = "func_2731"
       /\ (forall s, module_getattr (loaded_globals Awadhfree "module.awadhfree" st0)
                       (resolve_missing Awadhfree "module.awadhfree") "func_2731" s
                     = (Ok (BFunc f), s))
       /\ (forall s f',
             next_id (snd (load_module Awadhfree "module.awadhfree" st0)) <= next_id s ->
             fst (resolve_missing Awadhfree "module.awadhfree" "func_2731" s) = Ok f' ->
             fn_id f' <> fn_id f).
Proof.
  split; [solve_in |].
  exact (placeholder_lookup_precedes_fallback Awadhfree "module.awadhfree" st0
           "func_2731" ltac:(solve_in)).
Defined.

(** ** Repeated resolution *)

(** C8: resolving the same missing name twice, in any two states, has the
    same outcome.  Either both resolutions raise the same error, or both
    return a callable, and then the two callables carry the same name and
    description and behave alike: called on the same inputs in the same
    state they return equal records and log the same event.  They need not
    be one object: resolving again right after the first resolution yields a
    function object with another identity. *)
Theorem repeated_resolution_equivalent
    (v : variant) (modname name : string) (s1 s2 : state) :
  (forall e, fst (resolve_missing v modname name s1) = Raise e ->
             fst (resolve_missing v modname name s2) = Raise e)
  /\ (forall f1, fst (resolve_missing v modname name s1) = Ok f1 ->
        exists f2,
          fst (resolve_missing v modname name s2) = Ok f2
          /\ fn_name f1 = fn_name f2
          /\ fn_doc f1 = fn_doc f2
          /\ (forall args kwargs s, call f1 args kwargs s = call f2 args kwargs s)
          /\ (next_id s1 <> next_id s2 -> fn_id f1 <> fn_id f2))
  /\ (forall f1 f2,
        fst (resolve_missing v modname name s1) = Ok f1 ->
        fst (resolve_missing v modname name (snd (resolve_missing v modname name s1))) = Ok f2 ->
        fn_id f1 <> fn_id f2).
Proof.
  assert (forall s s',
            (exists e, fst (resolve_missing v modname name s) = Raise e
                       /\ fst (resolve_missing v modname name s') = Raise e)
            \/ (resolve_missing v modname name s
                  = (Ok (stub_object v modname (next_id s) name),
                     State (S (next_id s)) (log s))
                /\ resolve_missing v modname name s'
                  = (Ok (stub_object v modname (next_id s') name),
                     State (S (next_id s')) (log s')))) as Hsame.
  { intros s s'. destruct v.
    - rewrite !resolve_missing_wide.
      destruct (startswith name _ || isidentifier name).
      + right. rewrite !make_stub_run. split; reflexivity.
      + left. eexists. split; reflexivity.
    - rewrite !(resolve_missing_strict Cdsfree) by reflexivity.
      destruct (startswith name _).
      + right. rewrite !make_stub_run. split; reflexivity.
      + left. eexists. split; reflexivity.
    - rewrite !(resolve_missing_strict Icsfree) by reflexivity.
      destruct (startswith name _).
      + right. rewrite !make_stub_run. split; reflexivity.
      + left. eexists. split; reflexivity.
    - rewrite !(resolve_missing_strict Verbalfree) by reflexivity.
      destruct (startswith name _).
      + right. rewrite !make_stub_run. split; reflexivity.
      + left. eexists. split; reflexivity. }
  split; [| split].
  - intros e He. destruct (Hsame s1 s2) as [(e' & E1 & E2) | (E1 & E2)].
    + congruence.
    + rewrite E1 in He. discriminate He.
  - intros f1 Hf1. destruct (Hsame s1 s2) as [(e' & E1 & E2) | (E1 & E2)].
    + congruence.
    + rewrite E1 in Hf1. injection Hf1 as <-.
      exists (stub_object v modname (next_id s2) name).
      rewrite E2. repeat split. exact (fun H => H).
  - intros f1 f2 Hf1 Hf2.
    destruct (Hsame s1 (snd (resolve_missing v modname name s1)))
      as [(e' & E1 & E2) | (E1 & E2)].
    + congruence.
    + rewrite E2 in Hf2. rewrite E1 in Hf1, Hf2. cbn [fst snd next_id] in Hf1, Hf2.
      injection Hf1 as <-. injection Hf2 as <-. cbn [stub_object fn_id]. lia.
Qed.

(** ** Logging *)

(** C9, as stated, fails: a resolution that builds a stub logs nothing. *)
Lemma resolution_logs_nothing_example :
  (exists f, fst (resolve_missing Cdsfree "module.cdsfree" "module_9999" st0) = Ok f)
  /\ log st0 = []
  /\ log (snd (resolve_missing Cdsfree "module.cdsfree" "module_9999" st0)) = []
  /\ log (snd (resolve_missing Awadhfree "module.awadhfree" "module_9999" st0)) = [].
Proof. split; [eexists; reflexivity | repeat split]. Qed.

(** C9, amended: the fallback makes no call on the logger, whether it builds
    a stub or rejects the name; each call of a stub makes exactly one, at
    WARNING level on the module's own logger, carrying the bound name and
    the positional and keyword inputs received. *)
Theorem observability_events (v : variant) (modname name : string) (st : state) :
  log (snd (resolve_missing v modname name st)) = log st
  /\ forall f, fst (resolve_missing v modname name st) = Ok f ->
       forall args kwargs s,
         log (snd (call f args kwargs s))
           = log s ++ [Event modname WARNING (stub_template v)
                         [VStr name; VTuple args; VDict kwargs]].
Proof.
  destruct (resolve_missing_cases v modname name st) as [E | E]; rewrite E.
  - split; [reflexivity |]. intros f [= <-] args kwargs s.
    rewrite call_stub_object. reflexivity.
  - split; [reflexivity |]. intros f Hf. discriminate Hf.
Qed.

(** ** Classification *)

Lemma accepts_eq (v : variant) (name : string) :
  accepts v name =
    if strict_prefix v then startswith name ["module_"; "func_"]
    else startswith name ["module_"; "func_"] || isidentifier name.
Proof.
  unfold accepts. destruct v; cbn [strict_prefix].
  - rewrite resolve_missing_wide.
    destruct (startswith name _ || isidentifier name); reflexivity.
  - rewrite resolve_missing_strict by reflexivity. destruct (startswith name _); reflexivity.
  - rewrite resolve_missing_strict by reflexivity. destruct (startswith name _); reflexivity.
  - rewrite resolve_missing_strict by reflexivity. destruct (startswith name _); reflexivity.
Qed.

(** [accepts] is the outcome of the fallback in every module and state. *)
Lemma accepts_resolves (v : variant) (modname name : string) (st : state) :
  accepts v name = true <-> exists f, fst (resolve_missing v modname name st) = Ok f.
Proof.
  rewrite accepts_eq. destruct v; cbn [strict_prefix].
  - rewrite resolve_missing_wide.
    destruct (startswith name _ || isidentifier name).
    + split; [intros _; eexists; reflexivity | reflexivity].
    + split; [discriminate | intros [f Hf]; discriminate Hf].
  - rewrite resolve_missing_strict by reflexivity. destruct (startswith name _).
    + split; [intros _; eexists; reflexivity | reflexivity].
    + split; [discriminate | intros [f Hf]; discriminate Hf].
  - rewrite resolve_missing_strict by reflexivity. destruct (startswith name _).
    + split; [intros _; eexists; reflexivity | reflexivity].
    + split; [discriminate | intros [f Hf]; discriminate Hf].
  - rewrite resolve_missing_strict by reflexivity. destruct (startswith name _).
    + split; [intros _; eexists; reflexivity | reflexivity].
    + split; [discriminate | intros [f Hf]; discriminate Hf].
Qed.

(** A prefix test only reads as many characters as the prefix has. *)
Lemma prefix_substring (p s : string) (n : nat) :
  String.length p <= n -> String.prefix p (substring 0 n s) = String.prefix p s.
Proof.
  revert s n. induction p as [|a p IH]; intros s n Hlen.
  - destruct (substring 0 n s), s; reflexivity.
  - destruct n as [|n]; [cbn in Hlen; lia |].
    destruct s as [|b s]; [reflexivity |].
    cbn [substring String.prefix]. destruct (ascii_dec a b); [| reflexivity].
    apply IH. cbn in Hlen. lia.
Qed.

Lemma startswith_leading (n1 n2 : string) :
  substring 0 7 n1 = substring 0 7 n2 ->
  startswith n1 ["module_"; "func_"] = startswith n2 ["module_"; "func_"].
Proof.
  intros H. unfold startswith. cbn [existsb].
  rewrite <- (prefix_substring "module_" n1 7), <- (prefix_substring "func_" n1 7),
          <- (prefix_substring "module_" n2 7), <- (prefix_substring "func_" n2 7)
    by (cbn; lia).
  rewrite H. reflexivity.
Qed.

Lemma prefix_app (p rest : string) : String.prefix p (p ++ rest) = true.
Proof.
  induction p as [|a p IH]; [destruct rest; reflexivity |].
  simpl. destruct (ascii_dec a a); [exact IH | contradiction].
Qed.

Lemma letters_identifier (k : nat) (c : ascii) :
  xid_continue c = true -> all_chars xid_continue (letters k ++ String c "") = true.
Proof.
  intros Hc. induction k as [|k IH]; simpl.
  - rewrite Hc. reflexivity.
  - exact IH.
Qed.

Lemma substring_letters (k : nat) (rest : string) :
  substring 0 k (letters k ++ rest) = letters k.
Proof.
  induction k as [|k IH]; simpl.
  - destruct rest; reflexivity.
  - rewrite IH. reflexivity.
Qed.

(** However many leading characters are read, awadhfree tells apart two
    names that agree on all of them. *)
Lemma wide_variant_any_leading_length (k : nat) :
  substring 0 k (letters k ++ "a") = substring 0 k (letters k ++ "-")
  /\ accepts Awadhfree (letters k ++ "a") = true
  /\ accepts Awadhfree (letters k ++ "-") = false.
Proof.
  split; [rewrite !substring_letters; reflexivity |].
  rewrite !accepts_eq. cbn [strict_prefix].
  destruct k as [|k]; [split; reflexivity |].
  split.
  - change (isidentifier (letters (S k) ++ "a"))
      with (all_chars xid_continue (letters k ++ "a")).
    rewrite letters_identifier by reflexivity. reflexivity.
  - change (isidentifier (letters (S k) ++ "-"))
      with (all_chars xid_continue (letters k ++ "-")).
    assert (all_chars xid_continue (letters k ++ "-") = false) as ->.
    { clear. induction k as [|k IH]; simpl; [reflexivity | exact IH]. }
    reflexivity.
Qed.

(** C10, as stated, fails for awadhfree: two names with the same leading
    characters, one an identifier and one not, are classified differently. *)
Lemma wide_variant_reads_whole_name :
  substring 0 7 "startup_hook" = substring 0 7 "startup-hook"
  /\ accepts Awadhfree "startup_hook" = true
  /\ accepts Awadhfree "startup-hook" = false
  /\ (exists f, fst (resolve_missing Awadhfree "module.awadhfree" "startup_hook" st0) = Ok f)
  /\ fst (resolve_missing Awadhfree "module.awadhfree" "startup-hook" st0)
       = Raise (AttributeError
                  "module 'module.awadhfree' has no attribute 'startup-hook'").
Proof.
  split; [reflexivity | split; [reflexivity | split; [reflexivity | split]]].
  - eexists. reflexivity.
  - reflexivity.
Qed.

(** C10, amended: in the three strict variants the classification is decided
    by the leading characters of the name alone (its first seven); in
    awadhfree a name without an accepted prefix is accepted exactly when the
    whole name is an identifier.  In all four variants a string that begins
    with ["module_"] or ["func_"] is accepted whatever follows, also when it
    is no identifier (["module_-x"]), and for every string, the empty one
    included, the fallback either returns a callable or raises the attribute
    error for that name, never anything else. *)
Theorem classification_by_prefix (v : variant) (modname name : string) (st : state) :
  (strict_prefix v = true ->
     forall other, substring 0 7 name = substring 0 7 other ->
                   accepts v name = accepts v other)
  /\ (strict_prefix v = false ->
     accepts v name = startswith name ["module_"; "func_"] || isidentifier name)
  /\ (forall p rest, In p ["module_"; "func_"] -> accepts v (p ++ rest) = true)
  /\ (isidentifier "module_-x" = false /\ accepts v "module_-x" = true)
  /\ ((exists f, resolve_missing v modname name st
                   = (Ok f, State (S (next_id st)) (log st)))
      \/ resolve_missing v modname name st
           = (Raise (AttributeError
                       ("module '" ++ modname ++ "' has no attribute '" ++ name ++ "'")), st))
  /\ resolve_missing v modname "" st
       = (Raise (AttributeError ("module '" ++ modname ++ "' has no attribute ''")), st).
Proof.
  split; [| split; [| split; [| split; [| split]]]].
  - intros Hv other Hlead. rewrite !accepts_eq, Hv. apply startswith_leading, Hlead.
  - intros Hv. rewrite accepts_eq, Hv. reflexivity.
  - intros p rest Hp.
    assert (startswith (p ++ rest) ["module_"; "func_"] = true) as Hs.
    { unfold startswith. cbn [existsb].
      destruct Hp as [<- | [<- | []]]; rewrite prefix_app.
      - reflexivity.
      - apply orb_true_r. }
    rewrite accepts_eq, Hs. destruct (strict_prefix v); reflexivity.
  - split; [reflexivity | destruct v; reflexivity].
  - destruct (resolve_missing_cases v modname name st) as [E | E].
    + left. eexists. exact E.
    + right. exact E.
  - destruct v; reflexivity.
Qed.

(** * Further properties of the four modules *)

(** ** What each placeholder does when called *)


Ltac behaves_here :=
  eexists; eexists; split; cycle 1;
  [ intros; eexists; reflexivity | reflexivity ].

Lemma awadhfree_detail (modname : string) (st : state) :
  exists g,
    awadhfree.load modname st = (Ok g, State (7 + next_id st) (log st))
    /\ g !! "setup" = Some BOther
    /\ forall k, In k awadhfree.placeholders ->
         exists f, g !! k = Some (BFunc f) /\ placeholder_behaviour modname k f.
Proof.
  destruct st as [nid lg]. cbn [next_id log]. unfold awadhfree.load.
  eexists. split; [| split].
  - repeat run_stmt. reflexivity.
  - find_binding.
  - intros k Hk. unfold awadhfree.placeholders in Hk.
    repeat (destruct Hk as [<- | Hk];
            [ eexists; split; [find_binding | behaves_here] | ]).
    destruct Hk.
Qed.

Lemma verbalfree_detail (modname : string) (st : state) :
  exists g,
    verbalfree.load modname st = (Ok g, State (20 + next_id st) (log st))
    /\ g !! "setup" = Some BOther
    /\ forall k, In k verbalfree.placeholders ->
         exists f, g !! k = Some (BFunc f) /\ placeholder_behaviour modname k f.
Proof.
  destruct st as [nid lg]. cbn [next_id log]. unfold verbalfree.load.
  eexists. split; [| split].
  - repeat run_stmt. reflexivity.
  - find_binding.
  - intros k Hk. unfold verbalfree.placeholders in Hk.
    repeat (destruct Hk as [<- | Hk];
            [ eexists; split; [find_binding | behaves_here] | ]).
    destruct Hk.
Qed.

(** The two loops again, now telling which factory built the function a name
    ends up bound to: the second loop wins where a name is in both lists. *)
Section StrictShapes.
Variables (lm lf : list string) (nm_lm var_m nm_lf var_f : string).
Variables (mkm mkf : string -> M pyfunc) (shm shf : nat -> string -> pyfunc).
Hypothesis mkm_run : forall n st,
  mkm n st = (Ok (shm (next_id st) n), State (S (next_id st)) (log st)).
Hypothesis mkf_run : forall n st,
  mkf n st = (Ok (shf (next_id st) n), State (S (next_id st)) (log st)).
Hypothesis fresh_m : forall c,
  In c [var_m; "_make"; nm_lf; var_f; "_makef";
        "_make_stub"; "__getattr__"; "setup"; "__all__"] ->
  existsb (String.eqb c) lm = false.
Hypothesis fresh_f : forall c,
  In c [var_f; "_makef"; "_make_stub"; "__getattr__"; "setup"; "__all__"] ->
  existsb (String.eqb c) lf = false.

Lemma strict_shapes (st : state) :
  exists g,
    exec [ bind_other "annotations"; bind_other "logging";
           bind_other "Any"; bind_other "Callable"; bind_other "Dict";
           bind_other "logger";
           bind_other nm_lm;
           for_each lm (fun n =>
             exec [bind_other var_m; bind_other "_make"; def_stmt n (mkm n)]);
           bind_other nm_lf;
           for_each lf (fun n =>
             exec [bind_other var_f; bind_other "_makef"; def_stmt n (mkf n)]);
           bind_other "_make_stub"; bind_other "__getattr__"; bind_other "setup";
           bind_other "__all__" ] initial_globals st
      = (Ok g, State (length lm + length lf + next_id st) (log st))
    /\ g !! "setup" = Some BOther
    /\ (forall k, In k lf -> exists id, g !! k = Some (BFunc (shf id k)))
    /\ (forall k, In k lm -> ~ In k lf -> exists id, g !! k = Some (BFunc (shm id k))).
Proof.
  destruct st as [nid lg]. cbn [next_id log].
  set (g0 := <[nm_lm := BOther]> (<["logger" := BOther]> (<["Dict" := BOther]>
             (<["Callable" := BOther]> (<["Any" := BOther]> (<["logging" := BOther]>
             (<["annotations" := BOther]> initial_globals))))))).
  destruct (for_each_register var_m "_make" mkm shm mkm_run lm g0 (State nid lg))
    as (g1 & Hrun1 & Hframe1 & Hbound1).
  cbn [next_id log] in Hrun1, Hbound1.
  destruct (for_each_register var_f "_makef" mkf shf mkf_run lf
              (<[nm_lf := BOther]> g1) (State (length lm + nid) lg))
    as (g2 & Hrun2 & Hframe2 & Hbound2).
  cbn [next_id log] in Hrun2, Hbound2.
  exists (<["__all__" := BOther]> (<["setup" := BOther]> (<["__getattr__" := BOther]>
          (<["_make_stub" := BOther]> g2)))).
  assert (forall c, In c [var_f; "_makef"; "_make_stub"; "__getattr__"; "setup"; "__all__"] ->
            forall k, In k lf -> c <> k) as Hneq_f.
  { intros c Hc k Hk. apply not_eq_sym, (neq_of_in c k lf (fresh_f c Hc) Hk). }
  assert (forall c, In c [var_m; "_make"; nm_lf; var_f; "_makef";
                          "_make_stub"; "__getattr__"; "setup"; "__all__"] ->
            forall k, In k lm -> c <> k) as Hneq_m.
  { intros c Hc k Hk. apply not_eq_sym, (neq_of_in c k lm (fresh_m c Hc) Hk). }
  split; [| split; [| split]].
  - do 7 run_stmt. fold g0.
    rewrite exec_cons, (bind_run _ _ _ _ _ Hrun1). run_stmt.
    rewrite exec_cons, (bind_run _ _ _ _ _ Hrun2). do 4 run_stmt.
    cbn [exec ret]. f_equal. f_equal. lia.
  - rewrite lookup_insert_ne by discriminate. apply lookup_insert_eq.
  - intros k Hin.
    destruct (Hbound2 (not_in_of_existsb _ _ (fresh_f var_f ltac:(solve_in)))
                      (not_in_of_existsb _ _ (fresh_f "_makef" ltac:(solve_in))) k Hin)
      as (id & Hid & Hlook).
    exists id.
    do 4 (rewrite lookup_insert_ne by (apply Hneq_f; [solve_in | exact Hin])).
    exact Hlook.
  - intros k Hk Hout.
    destruct (Hbound1 (not_in_of_existsb _ _ (fresh_m var_m ltac:(solve_in)))
                      (not_in_of_existsb _ _ (fresh_m "_make" ltac:(solve_in))) k Hk)
      as (id & Hid & Hlook).
    exists id.
    do 4 (rewrite lookup_insert_ne by (apply Hneq_m; [solve_in | exact Hk])).
    rewrite Hframe2;
      [| exact Hout
       | apply not_eq_sym, Hneq_m; [solve_in | exact Hk]
       | apply not_eq_sym, Hneq_m; [solve_in | exact Hk] ].
    rewrite lookup_insert_ne by (apply Hneq_m; [solve_in | exact Hk]).
    exact Hlook.
Qed.

End StrictShapes.

Lemma loaded_globals_eq (v : variant) (modname : string) (st st' : state)
    (g : gmap string binding) :
  load_module v modname st = (Ok g, st') -> loaded_globals v modname st = g.
Proof. intros H. unfold loaded_globals. rewrite H. reflexivity. Qed.

Lemma kind_of_listed (p : string -> bool) (xs : list string) (k : string) :
  forallb p xs = true -> In k xs -> p k = true.
Proof. intros H Hk. exact (proj1 (forallb_forall p xs) H k Hk). Qed.

Lemma cdsfree_shapes (modname : string) (st : state) (k : string) :
  In k cdsfree.placeholders ->
  exists id,
    loaded_globals Cdsfree modname st !! k
      = Some (BFunc (if String.prefix "func_" k
                     then PyFunc id k (Some ("Placeholder function " ++ k)%string) VarArgs
                            (cdsfree._f modname k)
                     else PyFunc id k (Some ("Placeholder for " ++ k)%string) VarArgs
                            (cdsfree._fn modname k))).
Proof.
  intros Hk.
  destruct (strict_shapes cdsfree.PLACEHOLDER_MODULES cdsfree.EXPLICIT_FUNCS
              "PLACEHOLDER_MODULES" "name" "EXPLICIT_FUNCS" "fname"
              (cdsfree._make modname) (cdsfree._makef modname)
              (fun id n => PyFunc id n (Some ("Placeholder for " ++ n)%string) VarArgs
                             (cdsfree._fn modname n))
              (fun id n => PyFunc id n (Some ("Placeholder function " ++ n)%string) VarArgs
                             (cdsfree._f modname n))
              (fun n st => eq_refl) (fun n st => eq_refl)
              ltac:(fresh_names) ltac:(fresh_names) st) as (g & Hrun & _ & Hf & Hm).
  rewrite (loaded_globals_eq Cdsfree modname st _ g Hrun).
  assert (forallb (fun n => negb (String.prefix "func_" n)) cdsfree.PLACEHOLDER_MODULES = true)
    as Hkm by (vm_compute; reflexivity).
  assert (forallb (String.prefix "func_") cdsfree.EXPLICIT_FUNCS = true)
    as Hkf by (vm_compute; reflexivity).
  apply in_app_or in Hk. destruct Hk as [Hk | Hk].
  - pose proof (kind_of_listed _ _ k Hkm Hk) as Hp. apply negb_true_iff in Hp.
    rewrite Hp. apply Hm; [exact Hk |].
    intros Hin. rewrite (kind_of_listed _ _ k Hkf Hin) in Hp. discriminate Hp.
  - rewrite (kind_of_listed _ _ k Hkf Hk). apply Hf, Hk.
Qed.

Lemma icsfree_shapes (modname : string) (st : state) (k : string) :
  In k icsfree.placeholders ->
  exists id,
    loaded_globals Icsfree modname st !! k
      = Some (BFunc (if String.prefix "func_" k
                     then PyFunc id k (Some ("Placeholder function " ++ k)%string) VarArgs
                            (icsfree._f modname k)
                     else PyFunc id k (Some ("Placeholder for " ++ k)%string) VarArgs
                            (icsfree._fn modname k))).
Proof.
  intros Hk.
  destruct (strict_shapes icsfree._PLACEHOLDER_MODULES icsfree._EXPLICIT_FUNCS
              "_PLACEHOLDER_MODULES" "_name" "_EXPLICIT_FUNCS" "_fname"
              (icsfree._make modname) (icsfree._makef modname)
              (fun id n => PyFunc id n (Some ("Placeholder for " ++ n)%string) VarArgs
                             (icsfree._fn modname n))
              (fun id n => PyFunc id n (Some ("Placeholder function " ++ n)%string) VarArgs
                             (icsfree._f modname n))
              (fun n st => eq_refl) (fun n st => eq_refl)
              ltac:(fresh_names) ltac:(fresh_names) st) as (g & Hrun & _ & Hf & Hm).
  rewrite (loaded_globals_eq Icsfree modname st _ g Hrun).
  assert (forallb (fun n => negb (String.prefix "func_" n)) icsfree._PLACEHOLDER_MODULES = true)
    as Hkm by (vm_compute; reflexivity).
  assert (forallb (String.prefix "func_") icsfree._EXPLICIT_FUNCS = true)
    as Hkf by (vm_compute; reflexivity).
  apply in_app_or in Hk. destruct Hk as [Hk | Hk].
  - pose proof (kind_of_listed _ _ k Hkm Hk) as Hp. apply negb_true_iff in Hp.
    rewrite Hp. apply Hm; [exact Hk |].
    intros Hin. rewrite (kind_of_listed _ _ k Hkf Hin) in Hp. discriminate Hp.
  - rewrite (kind_of_listed _ _ k Hkf Hk). apply Hf, Hk.
Qed.

Lemma setup_bound (v : variant) (modname : string) (st : state) :
  loaded_globals v modname st !! "setup" = Some BOther.
Proof.
  destruct v.
  - destruct (awadhfree_detail modname st) as (g & Hrun & Hs & _).
    rewrite (loaded_globals_eq Awadhfree modname st _ g Hrun). exact Hs.
  - destruct (strict_shapes cdsfree.PLACEHOLDER_MODULES cdsfree.EXPLICIT_FUNCS
                "PLACEHOLDER_MODULES" "name" "EXPLICIT_FUNCS" "fname"
                (cdsfree._make modname) (cdsfree._makef modname)
                (fun id n => PyFunc id n (Some ("Placeholder for " ++ n)%string) VarArgs
                               (cdsfree._fn modname n))
                (fun id n => PyFunc id n (Some ("Placeholder function " ++ n)%string) VarArgs
                               (cdsfree._f modname n))
                (fun n st => eq_refl) (fun n st => eq_refl)
                ltac:(fresh_names) ltac:(fresh_names) st) as (g & Hrun & Hs & _).
    rewrite (loaded_globals_eq Cdsfree modname st _ g Hrun). exact Hs.
  - destruct (strict_shapes icsfree._PLACEHOLDER_MODULES icsfree._EXPLICIT_FUNCS
                "_PLACEHOLDER_MODULES" "_name" "_EXPLICIT_FUNCS" "_fname"
                (icsfree._make modname) (icsfree._makef modname)
                (fun id n => PyFunc id n (Some ("Placeholder for " ++ n)%string) VarArgs
                               (icsfree._fn modname n))
                (fun id n => PyFunc id n (Some ("Placeholder function " ++ n)%string) VarArgs
                               (icsfree._f modname n))
                (fun n st => eq_refl) (fun n st => eq_refl)
                ltac:(fresh_names) ltac:(fresh_names) st) as (g & Hrun & Hs & _).
    rewrite (loaded_globals_eq Icsfree modname st _ g Hrun). exact Hs.
  - destruct (verbalfree_detail modname st) as (g & Hrun & Hs & _).
    rewrite (loaded_globals_eq Verbalfree modname st _ g Hrun). exact Hs.
Qed.

Lemma placeholder_detail (v : variant) (modname : string) (st : state) (k : string) :
  In k (placeholders v) ->
  exists f, loaded_globals v modname st !! k = Some (BFunc f)
            /\ placeholder_behaviour modname k f.
Proof.
  intros Hk. destruct v.
  - destruct (awadhfree_detail modname st) as (g & Hrun & _ & Hb).
    rewrite (loaded_globals_eq Awadhfree modname st _ g Hrun). exact (Hb k Hk).
  - destruct (cdsfree_shapes modname st k Hk) as (id & Hlook).
    eexists. split; [exact Hlook |].
    unfold placeholder_behaviour, placeholder_level.
    destruct (String.prefix "func_" k); behaves_here.
  - destruct (icsfree_shapes modname st k Hk) as (id & Hlook).
    eexists. split; [exact Hlook |].
    unfold placeholder_behaviour, placeholder_level.
    destruct (String.prefix "func_" k); behaves_here.
  - destruct (verbalfree_detail modname st) as (g & Hrun & _ & Hb).
    rewrite (loaded_globals_eq Verbalfree modname st _ g Hrun). exact (Hb k Hk).
Qed.

Lemma call_cases (f : pyfunc) (args : list pyval) (kwargs : list (string * pyval))
    (s : state) :
  call f args kwargs s = fn_body f args kwargs s
  \/ call f args kwargs s = (Raise TypeError, s).
Proof.
  unfold call. destruct (fn_params f); [left; reflexivity |].
  destruct args; [| right; reflexivity].
  destruct kwargs; [left | right]; reflexivity.
Qed.

Lemma placeholders_prefixed (v : variant) (k : string) :
  In k (placeholders v) -> startswith k ["module_"; "func_"] = true.
Proof.
  apply (kind_of_listed (fun n => startswith n ["module_"; "func_"])).
  destruct v; vm_compute; reflexivity.
Qed.

(** ** Loading *)

(** X1: running the body of any of the four modules never raises and makes
    no call on the logger; it allocates one function object for each entry
    of the module's placeholder lists and nothing else. *)
Theorem load_never_raises (v : variant) (modname : string) (st : state) :
  exists g,
    load_module v modname st
      = (Ok g, State (length (placeholders v) + next_id st) (log st))
    /\ length (placeholders v)
       = match v with Awadhfree => 7 | Cdsfree => 71 | Icsfree => 87 | Verbalfree => 20 end.
Proof.
  destruct (load_module_spec v modname st) as (g & Hrun & _).
  exists g. split; [exact Hrun | destruct v; reflexivity].
Qed.

(** X2: a call of a registered placeholder that goes through makes exactly
    one call on the module's logger, at INFO level for a [module_] name and
    at DEBUG level for a [func_] name, with a message that is the
    placeholder's own, and allocates nothing; a call that fails leaves the
    state as it was.  No placeholder ever logs at WARNING level, the level
    the stubs use. *)
Theorem placeholder_call_logs_once
    (v : variant) (modname : string) (st : state) (k : string) :
  In k (placeholders v) ->
  exists f msg,
    loaded_globals v modname st !! k = Some (BFunc f)
    /\ placeholder_level k <> WARNING
    /\ (forall args kwargs s r s',
          call f args kwargs s = (Ok r, s') ->
          next_id s' = next_id s
          /\ exists fields,
               log s' = log s ++ [Event modname (placeholder_level k) msg fields])
    /\ (forall args kwargs s e s', call f args kwargs s = (Raise e, s') -> s' = s).
Proof.
  intros Hk.
  destruct (placeholder_detail v modname st k Hk) as (f & Hlook & r & msg & _ & Hbody).
  exists f, msg. split; [exact Hlook | split; [| split]].
  - unfold placeholder_level. destruct (String.prefix "func_" k); discriminate.
  - intros args kwargs s r' s' Hcall.
    destruct (call_cases f args kwargs s) as [E | E]; rewrite E in Hcall.
    + destruct (Hbody args kwargs s) as (fields & Hb). rewrite Hb in Hcall.
      injection Hcall as _ <-. split; [reflexivity | exists fields; reflexivity].
    + discriminate Hcall.
  - intros args kwargs s e s' Hcall.
    destruct (call_cases f args kwargs s) as [E | E]; rewrite E in Hcall.
    + destruct (Hbody args kwargs s) as (fields & Hb). rewrite Hb in Hcall.
      discriminate Hcall.
    + injection Hcall as _ <-. reflexivity.
Qed.

Lemma placeholder_call_logs_once_witness :
  In "func_2505" (placeholders Verbalfree)
  /\ exists f msg,
       loaded_globals Verbalfree "module.verbalfree" st0 !! "func_2505" = Some (BFunc f)
       /\ placeholder_level "func_2505" <> WARNING
       /\ (forall args kwargs s r s',
             call f args kwargs s = (Ok r, s') ->
             next_id s' = next_id s
             /\ exists fields,
                  log s' = log s ++ [Event "module.verbalfree"
                                       (placeholder_level "func_2505") msg fields])
       /\ (forall args kwargs s e s', call f args kwargs s = (Raise e, s') -> s' = s).
Proof.
  split; [solve_in |].
  exact (placeholder_call_logs_once Verbalfree "module.verbalfree" st0 "func_2505"
           ltac:(solve_in)).
Defined.

(** X3: every registered placeholder name carries an accepted prefix, so the
    fallback would accept it; yet the registered function never answers a
    call the way the stub for that name would.  Registering a name changes
    what callers observe. *)
Theorem placeholder_shadows_fallback
    (v : variant) (modname : string) (st : state) (k : string) :
  In k (placeholders v) ->
  startswith k ["module_"; "func_"] = true
  /\ exists f,
       loaded_globals v modname st !! k = Some (BFunc f)
       /\ forall s0 stub s1,
            resolve_missing v modname k s0 = (Ok stub, s1) ->
            forall args kwargs s,
              fst (call stub args kwargs s) = Ok (stub_record k args kwargs)
              /\ fst (call f args kwargs s) <> Ok (stub_record k args kwargs).
Proof.
  intros Hk. split; [exact (placeholders_prefixed v k Hk) |].
  destruct (placeholder_detail v modname st k Hk) as (f & Hlook & r & msg & Hr & Hbody).
  exists f. split; [exact Hlook |].
  intros s0 stub s1 Hres args kwargs s.
  destruct (resolve_missing_cases v modname k s0) as [E | E];
    rewrite E in Hres; [| discriminate Hres].
  injection Hres as <- _. rewrite call_stub_object. split; [reflexivity |].
  destruct (call_cases f args kwargs s) as [Ec | Ec]; rewrite Ec.
  - destruct (Hbody args kwargs s) as (fields & Hb). rewrite Hb. cbn [fst].
    intros [= ->]. discriminate Hr.
  - discriminate.
Qed.

Lemma placeholder_shadows_fallback_witness :
  In "module_1024" (placeholders Cdsfree)
  /\ startswith "module_1024" ["module_"; "func_"] = true
  /\ exists f,
       loaded_globals Cdsfree "module.cdsfree" st0 !! "module_1024" = Some (BFunc f)
       /\ forall s0 stub s1,
            resolve_missing Cdsfree "module.cdsfree" "module_1024" s0 = (Ok stub, s1) ->
            forall args kwargs s,
              fst (call stub args kwargs s) = Ok (stub_record "module_1024" args kwargs)
              /\ fst (call f args kwargs s) <> Ok (stub_record "module_1024" args kwargs).
Proof.
  split; [solve_in |].
  exact (placeholder_shadows_fallback Cdsfree "module.cdsfree" st0 "module_1024"
           ltac:(solve_in)).
Defined.

(** ** Attribute access on a loaded module *)

Lemma exported_known (v : variant) (name : string) :
  In name (exported v) -> name = "setup" \/ In name (placeholders v).
Proof.
  intros Hn.
  assert (forallb (fun n => String.eqb n "setup"
                            || existsb (String.eqb n) (placeholders v)) (exported v) = true)
    as Hall by (destruct v; vm_compute; reflexivity).
  pose proof (kind_of_listed _ _ name Hall Hn) as H. cbn beta in H.
  apply orb_true_iff in H. destruct H as [H | H].
  - left. apply String.eqb_eq, H.
  - right. apply existsb_exists in H. destruct H as (x & Hx & Heq).
    apply String.eqb_eq in Heq. subst x. exact Hx.
Qed.

(** X4: every name listed in [__all__] is bound in the namespace once the
    module is loaded, so a star import finds each of them there and never
    reaches the fallback: the access returns the bound value and leaves the
    state untouched. *)
Theorem exported_names_are_bound
    (v : variant) (modname : string) (st : state) (name : string) :
  In name (exported v) ->
  exists b,
    loaded_globals v modname st !! name = Some b
    /\ forall s, module_getattr (loaded_globals v modname st)
                   (resolve_missing v modname) name s = (Ok b, s).
Proof.
  intros Hn.
  assert (exists b, loaded_globals v modname st !! name = Some b) as [b Hb].
  { destruct (exported_known v name Hn) as [-> | Hk].
    - exists BOther. apply setup_bound.
    - destruct (placeholder_detail v modname st name Hk) as (f & Hlook & _).
      exists (BFunc f). exact Hlook. }
  exists b. split; [exact Hb |].
  intros s. unfold module_getattr. rewrite Hb. reflexivity.
Qed.

Lemma exported_names_are_bound_witness :
  In "setup" (exported Icsfree)
  /\ exists b,
       loaded_globals Icsfree "module.icsfree" st0 !! "setup" = Some b
       /\ forall s, module_getattr (loaded_globals Icsfree "module.icsfree" st0)
                      (resolve_missing Icsfree "module.icsfree") "setup" s = (Ok b, s).
Proof.
  assert (In "setup" (exported Icsfree)) as H.
  { apply in_or_app. right. apply in_or_app. right. left. reflexivity. }
  split; [exact H |].
  exact (exported_names_are_bound Icsfree "module.icsfree" st0 "setup" H).
Defined.

(** X5: on the loaded awadhfree module, access to an attribute whose name is
    an identifier never fails, whatever the state: the name is either bound
    or handed to a fallback that accepts every identifier. *)
Theorem wide_variant_identifier_access
    (modname : string) (st : state) (name : string) (s : state) :
  isidentifier name = true ->
  exists b, fst (module_getattr (loaded_globals Awadhfree modname st)
                   (resolve_missing Awadhfree modname) name s) = Ok b.
Proof.
  intros Hid. unfold module_getattr.
  destruct (loaded_globals Awadhfree modname st !! name) as [b |].
  - exists b. reflexivity.
  - rewrite resolve_missing_wide, Hid, orb_true_r.
    unfold bind. rewrite make_stub_run. eexists. reflexivity.
Qed.

Lemma wide_variant_identifier_access_witness :
  isidentifier "anything_at_all" = true
  /\ exists b, fst (module_getattr (loaded_globals Awadhfree "module.awadhfree" st0)
                      (resolve_missing Awadhfree "module.awadhfree")
                      "anything_at_all" st0) = Ok b.
Proof.
  split; [reflexivity |].
  apply (wide_variant_identifier_access "module.awadhfree" st0 "anything_at_all" st0).
  reflexivity.
Defined.


(** X7: removing a placeholder from the namespace does not break access to
    its name: the fallback then answers with a stub that bears that name. *)
Theorem removed_placeholder_falls_back
    (v : variant) (modname : string) (st : state) (k : string) (s : state) :
  In k (placeholders v) ->
  module_getattr (delete k (loaded_globals v modname st)) (resolve_missing v modname) k s
    = (Ok (BFunc (stub_object v modname (next_id s) k)), State (S (next_id s)) (log s)).
Proof.
  intros Hk. unfold module_getattr. rewrite lookup_delete_eq.
  unfold bind. rewrite (resolve_missing_prefixed v modname k s (placeholders_prefixed v k Hk)).
  reflexivity.
Qed.

Lemma removed_placeholder_falls_back_witness :
  In "module_772" (placeholders Awadhfree)
  /\ module_getattr (delete "module_772" (loaded_globals Awadhfree "module.awadhfree" st0))
       (resolve_missing Awadhfree "module.awadhfree") "module_772" st0
     = (Ok (BFunc (stub_object Awadhfree "module.awadhfree" 0 "module_772")), State 1 []).
Proof.
  split; [solve_in |].
  exact (removed_placeholder_falls_back Awadhfree "module.awadhfree" st0 "module_772" st0
           ltac:(solve_in)).
Defined.

(** ** The accepted names *)

Lemma prefix_true_app (p s : string) :
  String.prefix p s = true -> exists rest, s = (p ++ rest)%string.
Proof.
  revert s. induction p as [|a p IH]; intros s H.
  - exists s. reflexivity.
  - destruct s as [|b s]; [discriminate H |].
    simpl in H. destruct (ascii_dec a b) as [<- |]; [| discriminate H].
    destruct (IH s H) as [rest ->]. exists rest. reflexivity.
Qed.

(** X8: in the strict variants the fallback returns a callable for exactly
    the names that are ["module_"] or ["func_"] followed by any string, the
    empty one included; no other name is ever resolved. *)
Theorem strict_variants_accept_exactly_prefixed
    (v : variant) (modname name : string) (st : state) :
  strict_prefix v = true ->
  (exists f, fst (resolve_missing v modname name st) = Ok f)
  <-> exists rest, name = ("module_" ++ rest)%string \/ name = ("func_" ++ rest)%string.
Proof.
  intros Hv. rewrite <- (accepts_resolves v modname name st), accepts_eq, Hv.
  unfold startswith. cbn [existsb]. rewrite orb_false_r, orb_true_iff. split.
  - intros [H | H]; destruct (prefix_true_app _ _ H) as [rest ->]; exists rest; tauto.
  - intros [rest [-> | ->]]; [left | right]; apply prefix_app.
Qed.

Lemma strict_variants_accept_exactly_prefixed_witness :
  strict_prefix Verbalfree = true
  /\ ((exists f, fst (resolve_missing Verbalfree "module.verbalfree" "func_" st0) = Ok f)
      <-> exists rest, "func_" = ("module_" ++ rest)%string \/ "func_" = ("func_" ++ rest)%string).
Proof.
  split; [reflexivity |].
  exact (strict_variants_accept_exactly_prefixed Verbalfree "module.verbalfree" "func_" st0
           eq_refl).
Defined.

(** ** The state only grows *)



(** ** The setup hook *)



(** ** The registration loops of cdsfree and icsfree *)

(** X11: in cdsfree and icsfree every placeholder the loops register knows
    its own name, not the name the loop ended on: the function bound to [k]
    is named [k], documented as the placeholder for [k], logs [k] with the
    arguments it received, and returns [{"name": k, "ok": True}] for a
    [module_] name and [None] for a [func_] name. *)
Theorem loop_placeholder_reports_own_name
    (v : variant) (modname : string) (st : state) (k : string) :
  v = Cdsfree \/ v = Icsfree ->
  In k (placeholders v) ->
  exists f,
    loaded_globals v modname st !! k = Some (BFunc f)
    /\ fn_name f = k
    /\ fn_doc f = Some (if String.prefix "func_" k
                        then "Placeholder function " ++ k
                        else "Placeholder for " ++ k)%string
    /\ forall args kwargs s,
         call f args kwargs s
           = (Ok (if String.prefix "func_" k then VNone
                  else VDict [("name", VStr k); ("ok", VBool true)]),
              State (next_id s)
                (log s ++ [Event modname (placeholder_level k)
                             (if String.prefix "func_" k
                              then "%s executed — args=%s kwargs=%s"
                              else "%s called with args=%s kwargs=%s")
                             [VStr k; VTuple args; VDict kwargs]])).
Proof.
  intros [-> | ->] Hk.
  - destruct (cdsfree_shapes modname st k Hk) as (id & Hlook).
    eexists. split; [exact Hlook |]. unfold placeholder_level.
    destruct (String.prefix "func_" k); repeat split.
  - destruct (icsfree_shapes modname st k Hk) as (id & Hlook).
    eexists. split; [exact Hlook |]. unfold placeholder_level.
    destruct (String.prefix "func_" k); repeat split.
Qed.

Lemma loop_placeholder_reports_own_name_witness :
  (Cdsfree = Cdsfree \/ Cdsfree = Icsfree)
  /\ In "module_1024" (placeholders Cdsfree)
  /\ exists f,
       loaded_globals Cdsfree "module.cdsfree" st0 !! "module_1024" = Some (BFunc f)
       /\ fn_name f = "module_1024"
       /\ fn_doc f = Some "Placeholder for module_1024"
       /\ forall args kwargs s,
            call f args kwargs s
              = (Ok (VDict [("name", VStr "module_1024"); ("ok", VBool true)]),
                 State (next_id s)
                   (log s ++ [Event "module.cdsfree" INFO
                                "%s called with args=%s kwargs=%s"
                                [VStr "module_1024"; VTuple args; VDict kwargs]])).
Proof.
  split; [left; reflexivity | split; [solve_in |]].
  exact (loop_placeholder_reports_own_name Cdsfree "module.cdsfree" st0 "module_1024"
           (or_introl eq_refl) ltac:(solve_in)).
Defined.

(** ** What the prefix test adds in awadhfree *)

Lemma prefixed_identifier (p rest : string) :
  In p ["module_"; "func_"] ->
  isidentifier (p ++ rest) = all_chars xid_continue rest.
Proof. intros [<- | [<- | []]]; reflexivity. Qed.

(** X12: awadhfree accepts a name exactly when it is an identifier or an
    accepted prefix followed by a string with a character no identifier may
    contain.  The prefix test of its guard matters only for names such as
    ["module_-x"]; every other prefixed name is an identifier already. *)
Theorem wide_variant_accepts (name : string) :
  accepts Awadhfree name = true
  <-> isidentifier name = true
      \/ exists p rest, In p ["module_"; "func_"]
                        /\ name = (p ++ rest)%string
                        /\ all_chars xid_continue rest = false.
Proof.
  rewrite accepts_eq. cbn [strict_prefix]. split.
  - intros H. destruct (isidentifier name) eqn:Hid; [left; reflexivity | right].
    rewrite orb_false_r in H. unfold startswith in H. cbn [existsb] in H.
    rewrite orb_false_r in H. apply orb_true_iff in H.
    destruct H as [H | H]; destruct (prefix_true_app _ _ H) as [rest ->].
    + exists "module_", rest. split; [solve_in | split; [reflexivity |]].
      rewrite <- Hid. symmetry. apply prefixed_identifier. solve_in.
    + exists "func_", rest. split; [solve_in | split; [reflexivity |]].
      rewrite <- Hid. symmetry. apply prefixed_identifier. solve_in.
  - intros [-> | (p & rest & Hp & -> & _)]; [apply orb_true_r |].
    apply orb_true_iff. left. unfold startswith. cbn [existsb].
    destruct Hp as [<- | [<- | []]]; rewrite prefix_app; [reflexivity | apply orb_true_r].
Qed.
